(** * TaskMaster backend: the task controller, embedded and verified

    A shallow embedding of [controllers/taskController.js]: the eight
    request handlers [createTask], [getTasks], [getAssignedTasks],
    [getCreatedTasks], [getTaskById], [updateTask], [deleteTask] and
    [updateTaskStatus], over an explicit model of what they call:
    the JavaScript values of a request, [parseInt], [Date], and the
    Mongoose [Task] model over a collection of documents.

    Every handler is a function from the request and the database to
    the response and the database after the call. *)

From stdpp Require Import base option list strings gmap sorting.
From Stdlib Require Import ZArith Ascii Lia.
From Stdlib Require DecimalString DecimalN DecimalPos.

Local Open Scope string_scope.
Local Open Scope Z_scope.

(** ** JavaScript values of a request *)

Module Js.

(** A field of [req.body], as [express.json()] delivers it.  [JUndefined]
    is a field that was not sent.  [JNum] carries the integer-valued
    numbers; [JObj] stands for an array or an object and carries its
    [ToString] image, the only thing [new Date] looks at. *)
Inductive Val : Type :=
| JUndefined
| JNull
| JBool (b : bool)
| JNum (n : Z)
| JStr (s : string)
| JObj (image : string).

#[global] Instance Val_eq_dec : EqDecision Val.
Proof. solve_decision. Defined.

(** [ToBoolean]: what [!v] and [if (v)] test. *)
Definition truthy (v : Val) : bool :=
  match v with
  | JUndefined | JNull => false
  | JBool b => b
  | JNum n => negb (n =? 0)
  | JStr s => negb (String.eqb s "")
  | JObj _ => true
  end.

(** [arr.includes(v)] for an array of strings: SameValueZero, so only a
    string equal to an element is found. *)
Definition includes (arr : list string) (v : Val) : bool :=
  match v with
  | JStr s => existsb (String.eqb s) arr
  | _ => false
  end.

(** *** parseInt *)

(** The white space [parseInt] strips from the front (the ASCII part of
    StrWhiteSpaceChar: TAB, LF, VT, FF, CR, SP). *)
Definition isWhiteSpace (c : ascii) : bool :=
  let n := Z.of_nat (nat_of_ascii c) in
  ((9 <=? n) && (n <=? 13)) || (n =? 32).

Fixpoint trimStart (s : string) : string :=
  match s with
  | String c r => if isWhiteSpace c then trimStart r else s
  | EmptyString => s
  end.

(** The value of a character read as a digit in radix [R], if it is one. *)
Definition radixDigit (R : Z) (c : ascii) : option Z :=
  let n := Z.of_nat (nat_of_ascii c) in
  let d := if (48 <=? n) && (n <=? 57) then n - 48
           else if (97 <=? n) && (n <=? 122) then n - 87
           else if (65 <=? n) && (n <=? 90) then n - 55
           else R in
  if d <? R then Some d else None.

(** The longest prefix of radix-[R] digits, as a number; [acc] is [None]
    until a first digit has been read. *)
Fixpoint parseDigits (R : Z) (acc : option Z) (s : string) : option Z :=
  match s with
  | String c r =>
      match radixDigit R c with
      | Some d => parseDigits R (Some (default 0 acc * R + d)) r
      | None => acc
      end
  | EmptyString => acc
  end.

(** [parseInt(s)] without a radix; [None] is NaN.  The result is the
    exact integer (a double is exact up to 2^53). *)
Definition parseInt (s : string) : option Z :=
  let s := trimStart s in
  let '(sign, s) :=
    match s with
    | String "-" r => (-1, r)
    | String "+" r => (1, r)
    | _ => (1, s)
    end in
  let '(R, s) :=
    match s with
    | String "0" (String "x" r) | String "0" (String "X" r) => (16, r)
    | _ => (10, s)
    end in
  match parseDigits R None s with
  | Some m => Some (sign * m)
  | None => None
  end.

(** A query parameter: absent, or the string sent.  [parseInt] applies
    [ToString] first, and [undefined] reads "undefined". *)
Definition queryToString (q : option string) : string :=
  match q with
  | Some s => s
  | None => "undefined"
  end.

(** [parseInt(q) || d]: NaN and 0 are falsy. *)
Definition parseIntOr (q : option string) (d : Z) : Z :=
  match parseInt (queryToString q) with
  | Some n => if n =? 0 then d else n
  | None => d
  end.

(** [String(n)] of an integer: its decimal digits, after a minus sign
    when it is negative. *)
Definition numberToString (n : Z) : string :=
  let digits (m : Z) :=
    DecimalString.NilEmpty.string_of_uint (N.to_uint (Z.to_N m)) in
  if n <? 0 then String "-" (digits (- n)) else digits n.

(** *** Date *)

Definition msPerDay : Z := 86400000.

(** The largest time value of a [Date] (TimeClip). *)
Definition maxTime : Z := 8640000000000000.

(** The runtime's clock, its time zone (local time minus UTC in ms, the
    same for the two dates a handler compares) and [Date.parse]. *)
Record Runtime : Type := {
  now : Z;
  localTZA : Z;
  dateParse : string -> option Z;
}.

(** [new Date(v)]: the time value in ms since the epoch, [None] for an
    Invalid Date. *)
Definition newDate (rt : Runtime) (v : Val) : option Z :=
  match v with
  | JUndefined => None
  | JNull => Some 0
  | JBool b => Some (if b then 1 else 0)
  | JNum n => if Z.abs n <=? maxTime then Some n else None
  | JStr s | JObj s => dateParse rt s
  end.

(** [Day(t)], the day number of a time value. *)
Definition Day (t : Z) : Z := t / msPerDay.

(** [d.setHours(0, 0, 0, 0)]: midnight of the local day of [t], back in
    UTC. *)
Definition setHours0 (rt : Runtime) (t : Z) : Z :=
  Day (t + localTZA rt) * msPerDay - localTZA rt.

(** [a < b] on two dates; a comparison with NaN is false. *)
Definition dateLt (a b : option Z) : bool :=
  match a, b with
  | Some x, Some y => x <? y
  | _, _ => false
  end.

End Js.

(** ** The data model *)

(** A MongoDB ObjectId, as the number its twelve bytes spell.  The
    handlers compare two ids through [toString()], the hexadecimal image of
    these bytes, which is equal exactly when the ids are. *)
Definition ObjectId : Type := N.

(** A Task document as the collection holds it.  The five fields a caller
    writes keep the request's value, [JUndefined] when there is none. *)
Record Task : Type := {
  _id : ObjectId;
  title : Js.Val;
  description : Js.Val;
  dueDate : Js.Val;
  priority : Js.Val;
  status : Js.Val;
  assignedTo : ObjectId;
  createdBy : ObjectId;
  createdAt : Z;
}.

(** What [populate(path, 'name email')] puts in place of a user's id. *)
Record UserSummary : Type := {
  user_id : ObjectId;
  name : string;
  email : string;
}.

(** A Task after the two [populate] calls; a reference that resolves to no
    user is replaced by [null], here [None]. *)
Record Populated : Type := {
  doc : Task;
  assignedToUser : option UserSummary;
  createdByUser : option UserSummary;
}.

(** The database: the Task collection by [_id], and the User collection the
    references resolve in (name and email by [_id]). *)
Record DB : Type := {
  tasks : gmap ObjectId Task;
  users : gmap ObjectId (string * string);
}.

Definition withTasks (db : DB) (ts : gmap ObjectId Task) : DB :=
  {| tasks := ts; users := users db |}.

(** ** Requests and responses *)

Module Req.

(** The fields the handlers read from [req.body]. *)
Record Body : Type := {
  title : Js.Val;
  description : Js.Val;
  dueDate : Js.Val;
  priority : Js.Val;
  assignedTo : Js.Val;
  status : Js.Val;
}.

(** [req.query.page] and [req.query.limit]. *)
Record Query : Type := {
  page : option string;
  limit : option string;
}.

End Req.

(** A request after the [auth] middleware: [req.user._id], [req.params.id]
    (cast to an ObjectId), the body and the query string; with it what the
    handler draws from its environment: the runtime and the ObjectId the
    driver gives the next new document. *)
Record Request : Type := {
  user : ObjectId;
  params_id : ObjectId;
  body : Req.Body;
  query : Req.Query;
  runtime : Js.Runtime;
  newObjectId : ObjectId;
}.

(** The errors a handler's [catch] can receive. *)
Inductive Exn : Type :=
| ValidationError
| DuplicateKey
| TypeError
| MongoServerError.

(** The JSON object of a response. *)
Inductive Payload : Type :=
| Message (success : bool) (message : string)
| TaskBody (message : option string) (data : option Populated)
| PageBody (count total page pages : Z) (data : list Populated)
| ServerError (e : Exn).

(** [res.status(statusCode).json(json)]. *)
Record Response : Type := {
  statusCode : Z;
  json : Payload;
}.

(** The error kinds of the design, read off the status code. *)
Inductive ErrorKind : Type := InvalidInput | NotFound | Forbidden | StoreFailure.

Definition errorKind (r : Response) : option ErrorKind :=
  if statusCode r =? 400 then Some InvalidInput
  else if statusCode r =? 404 then Some NotFound
  else if statusCode r =? 403 then Some Forbidden
  else if statusCode r =? 500 then Some StoreFailure
  else None.

Definition succeeded (r : Response) : bool :=
  (200 <=? statusCode r) && (statusCode r <? 300).

(** ** Handlers as actions on the database

    The body of a handler runs until it sends the response: [send] ends it
    (the [return res.status(..).json(..)] of the source, and the last
    statement of the [try] block), and [throw] ends it in the [catch]
    block, which answers 500 with the error. *)

Definition Act (A : Type) : Type := DB -> (Response + A) * DB.

Definition ret {A} (a : A) : Act A := fun db => (inr a, db).

Definition bind {A B} (m : Act A) (k : A -> Act B) : Act B :=
  fun db =>
    match m db with
    | (inl r, db') => (inl r, db')
    | (inr a, db') => k a db'
    end.

Notation "x <~ m ;; k" := (bind m (fun x => k))
  (at level 100, m at next level, right associativity).

Definition send {A} (code : Z) (p : Payload) : Act A :=
  fun db => (inl {| statusCode := code; json := p |}, db).

Definition throw {A} (e : Exn) : Act A := send 500 (ServerError e).

Definition Handler : Type := DB -> Response * DB.

(** A handler's body always ends in a [send]. *)
Definition run (m : Act Empty_set) : Handler :=
  fun db =>
    match m db with
    | (inl r, db') => (r, db')
    | (inr e, _) => match e with end
    end.

(** ** The Task model (Mongoose) *)

(** What the schema of [models/Task.js] decides: which value casts to an
    ObjectId, which document the validators accept on [create] and [save],
    and which update [runValidators] accepts. *)
Class TaskSchema : Type := {
  castObjectId : Js.Val -> option ObjectId;
  validates : Task -> bool;
  validatesUpdate : Js.Val -> Js.Val -> Js.Val -> Js.Val -> Js.Val -> bool;
}.

(** Modelled from the spec: the schema of [models/Task.js] is not among the
    sources; [status] "defaults to pending at creation". *)
Definition defaultStatus : Js.Val := Js.JStr "pending".

(** The paths a query tests, and the tests. *)
Inductive Path : Type := P_createdBy | P_assignedTo.

Inductive Cond : Type :=
| Is (v : ObjectId)
| Ne (v : ObjectId).

(** A query filter: one path, an object of two paths (both must hold), or
    an [$or] of two filters. *)
Inductive Query : Type :=
| Field (p : Path) (c : Cond)
| Both (q1 q2 : Query)
| Or (q1 q2 : Query).

Definition readPath (p : Path) (t : Task) : ObjectId :=
  match p with
  | P_createdBy => createdBy t
  | P_assignedTo => assignedTo t
  end.

Definition holds (c : Cond) (v : ObjectId) : bool :=
  match c with
  | Is w => N.eqb v w
  | Ne w => negb (N.eqb v w)
  end.

Fixpoint matches (q : Query) (t : Task) : bool :=
  match q with
  | Field p c => holds c (readPath p t)
  | Both q1 q2 => matches q1 t && matches q2 t
  | Or q1 q2 => matches q1 t || matches q2 t
  end.

(** [sort({ createdAt: -1 })]: newest first. *)
Definition newerFirst (a b : Task) : Prop := createdAt b <= createdAt a.

#[global] Instance newerFirst_dec : RelDecision newerFirst.
Proof. intros a b. unfold newerFirst. apply _. Defined.

(** The documents a query matches, newest first. *)
Definition matching (q : Query) (db : DB) : list Task :=
  merge_sort newerFirst (filter (fun t => matches q t = true) (map_to_list (tasks db)).*2).

(** [limit(limit).skip(skip)] on a sorted result: the server refuses a
    negative skip; the driver sends a negative limit as its absolute value,
    and a limit of 0 is no limit. *)
Definition window (limit skip : Z) (l : list Task) : option (list Task) :=
  if skip <? 0 then None
  else
    let rest := drop (Z.to_nat skip) l in
    Some (if limit =? 0 then rest else take (Z.to_nat (Z.abs limit)) rest).

(** The summary a reference resolves to: the user's [_id], name and email,
    or [null] when there is no such user. *)
Definition summary (db : DB) (i : ObjectId) : option UserSummary :=
  match users db !! i with
  | Some (n, e) => Some {| user_id := i; name := n; email := e |}
  | None => None
  end.

Definition populated (db : DB) (t : Task) : Populated :=
  {| doc := t;
     assignedToUser := summary db (assignedTo t);
     createdByUser := summary db (createdBy t) |}.

(** [populate('assignedTo', 'name email')] and [populate('createdBy', 'name
    email')], which the handlers always call together. *)
Definition populate (t : Task) : Act Populated :=
  fun db => (inr (populated db t), db).

(** [populate] on a query that may have found nothing. *)
Definition populateFound (o : option Task) : Act (option Populated) :=
  match o with
  | Some t => p <~ populate t ;; ret (Some p)
  | None => ret None
  end.

Fixpoint populateAll (l : list Task) : Act (list Populated) :=
  match l with
  | [] => ret []
  | t :: l' => p <~ populate t ;; ps <~ populateAll l' ;; ret (p :: ps)
  end.

(** [p._id] on a populated reference: a TypeError on [null]. *)
Definition idOf (p : option UserSummary) : Act ObjectId :=
  match p with
  | Some u => ret (user_id u)
  | None => throw TypeError
  end.

Module TaskModel.
Section TaskModel.

Context `{TaskSchema}.

Definition findById (id : ObjectId) : Act (option Task) :=
  fun db => (inr (tasks db !! id), db).

Definition countDocuments (q : Query) : Act Z :=
  fun db => (inr (Z.of_nat (length (matching q db))), db).

(** [Task.find(q).sort({ createdAt: -1 }).limit(limit).skip(skip)]. *)
Definition find (q : Query) (limit skip : Z) : Act (list Task) :=
  fun db =>
    match window limit skip (matching q db) with
    | Some l => (inr l, db)
    | None => throw MongoServerError db
    end.

(** The document [Task.create] builds from what it is given.  The call
    passes no [status], so the schema's default stands; [_id] is the
    driver's new ObjectId.  Modelled from the spec for what the schema
    adds: [createdAt] is the "creation timestamp". *)
Definition newDocument (rt : Js.Runtime) (newId : ObjectId)
    (title description dueDate priority : Js.Val)
    (assignee createdBy : ObjectId) : Task :=
  {| _id := newId; title := title; description := description;
     dueDate := dueDate; priority := priority;
     status := defaultStatus; assignedTo := assignee;
     createdBy := createdBy; createdAt := Js.now rt |}.

(** [Task.create({ title, description, dueDate, priority, assignedTo,
    createdBy })]: the document gets the driver's new [_id], the schema's
    default status and the creation time; it is inserted when the schema
    accepts it. *)
Definition create (rt : Js.Runtime) (newId : ObjectId)
    (title description dueDate priority assignedTo : Js.Val)
    (createdBy : ObjectId) : Act Task :=
  match castObjectId assignedTo with
  | None => throw ValidationError
  | Some assignee =>
      let t := newDocument rt newId title description dueDate priority
                 assignee createdBy in
      if negb (validates t) then throw ValidationError
      else fun db =>
        match tasks db !! newId with
        | Some _ => throw DuplicateKey db
        | None => (inr t, withTasks db (<[newId := t]> (tasks db)))
        end
  end.

(** Modelled from the spec: the store's [updateById(id, patch)] behind
    [Task.findByIdAndUpdate(id, { title, description, dueDate, priority,
    status }, { new: true, runValidators: true })].  Each of the five keys
    of the patch replaces the stored value, also when its value is
    [undefined] ("fields not sent become undefined and overwrite prior
    values"); the updated document is returned, or [null]. *)
Definition findByIdAndUpdate (id : ObjectId)
    (title description dueDate priority status : Js.Val) : Act (option Task) :=
  if negb (validatesUpdate title description dueDate priority status)
  then throw ValidationError
  else fun db =>
    match tasks db !! id with
    | None => (inr None, db)
    | Some t =>
        let t' := {| _id := _id t; title := title; description := description;
                     dueDate := dueDate; priority := priority; status := status;
                     assignedTo := assignedTo t; createdBy := createdBy t;
                     createdAt := createdAt t |} in
        (inr (Some t'), withTasks db (<[id := t']> (tasks db)))
    end.

Definition findByIdAndDelete (id : ObjectId) : Act unit :=
  fun db => (inr tt, withTasks db (delete id (tasks db))).

(** [task.save()] of a loaded document. *)
Definition save (t : Task) : Act unit :=
  if negb (validates t) then throw ValidationError
  else fun db => (inr tt, withTasks db (<[_id t := t]> (tasks db))).

End TaskModel.
End TaskModel.

(** ** The controller *)

Section Controller.

Context `{TaskSchema}.

Import TaskModel.

(** The test both [createTask] and [updateTask] make on a due date:
    [today] and [taskDueDate] are set to their local midnight, and the
    date is refused when [taskDueDate < today]. *)
Definition dueDateInPast (rt : Js.Runtime) (dueDate : Js.Val) : bool :=
  let today := Some (Js.setHours0 rt (Js.now rt)) in
  let taskDueDate := Js.setHours0 rt <$> Js.newDate rt dueDate in
  Js.dateLt taskDueDate today.

Definition createTask (req : Request) : Handler :=
  run (
    let title := Req.title (body req) in
    let description := Req.description (body req) in
    let dueDate := Req.dueDate (body req) in
    let priority := Req.priority (body req) in
    let assignedTo := Req.assignedTo (body req) in
    if negb (Js.truthy title) || negb (Js.truthy description)
       || negb (Js.truthy dueDate) || negb (Js.truthy priority)
       || negb (Js.truthy assignedTo)
    then send 400 (Message false "Please provide all required fields")
    else if dueDateInPast (runtime req) dueDate
    then send 400 (Message false "Due date cannot be in the past")
    else
      task <~ create (runtime req) (newObjectId req)
                title description dueDate priority assignedTo (user req) ;;
      task <~ populate task ;;
      send 201 (TaskBody (Some "Task created successfully") (Some task))).

(** The three listings differ in their query alone; this is their common
    body. *)
Definition listTasks (q : Query) (req : Request) : Handler :=
  run (
    let page := Js.parseIntOr (Req.page (query req)) 1 in
    let limit := Js.parseIntOr (Req.limit (query req)) 3 in
    let skip := (page - 1) * limit in
    total <~ countDocuments q ;;
    found <~ find q limit skip ;;
    tasks <~ populateAll found ;;
    send 200 (PageBody (Z.of_nat (length tasks)) total page
                       (- ((- total) / limit)) tasks)).

(** Tasks where the user is the creator or the assignee. *)
Definition getTasks (req : Request) : Handler :=
  listTasks (Or (Field P_createdBy (Is (user req)))
                (Field P_assignedTo (Is (user req)))) req.

(** Tasks assigned to the user, but not created by them. *)
Definition getAssignedTasks (req : Request) : Handler :=
  listTasks (Both (Field P_assignedTo (Is (user req)))
                  (Field P_createdBy (Ne (user req)))) req.

(** Tasks created by the user. *)
Definition getCreatedTasks (req : Request) : Handler :=
  listTasks (Field P_createdBy (Is (user req))) req.

Definition getTaskById (req : Request) : Handler :=
  run (
    found <~ findById (params_id req) ;;
    match found with
    | None => send 404 (Message false "Task not found")
    | Some found =>
        task <~ populate found ;;
        creator <~ idOf (createdByUser task) ;;
        let isCreator := N.eqb creator (user req) in
        assignee <~ idOf (assignedToUser task) ;;
        let isAssignee := N.eqb assignee (user req) in
        if negb isCreator && negb isAssignee
        then send 403 (Message false "You are not authorized to view this task")
        else send 200 (TaskBody None (Some task))
    end).

Definition updateTask (req : Request) : Handler :=
  run (
    found <~ findById (params_id req) ;;
    match found with
    | None => send 404 (Message false "Task not found")
    | Some task =>
        let isCreator := N.eqb (createdBy task) (user req) in
        let isAssignee := N.eqb (assignedTo task) (user req) in
        if negb isCreator && negb isAssignee
        then send 403 (Message false "You are not authorized to update this task")
        else if Js.truthy (Req.dueDate (body req))
                && dueDateInPast (runtime req) (Req.dueDate (body req))
        then send 400 (Message false "Due date cannot be in the past")
        else
          updated <~ findByIdAndUpdate (params_id req)
                       (Req.title (body req)) (Req.description (body req))
                       (Req.dueDate (body req)) (Req.priority (body req))
                       (Req.status (body req)) ;;
          task <~ populateFound updated ;;
          send 200 (TaskBody (Some "Task updated successfully") task)
    end).

Definition deleteTask (req : Request) : Handler :=
  run (
    found <~ findById (params_id req) ;;
    match found with
    | None => send 404 (Message false "Task not found")
    | Some task =>
        let isCreator := N.eqb (createdBy task) (user req) in
        if negb isCreator
        then send 403 (Message false "Only the task creator can delete this task")
        else
          _ <~ findByIdAndDelete (params_id req) ;;
          send 200 (Message true "Task deleted successfully")
    end).

(** [task.status = status]. *)
Definition setStatus (task : Task) (s : Js.Val) : Task :=
  {| _id := _id task; title := title task; description := description task;
     dueDate := dueDate task; priority := priority task; status := s;
     assignedTo := assignedTo task; createdBy := createdBy task;
     createdAt := createdAt task |}.

Definition updateTaskStatus (req : Request) : Handler :=
  run (
    let status := Req.status (body req) in
    if negb (Js.truthy status) || negb (Js.includes ["pending"; "completed"] status)
    then send 400 (Message false "Please provide a valid status (pending or completed)")
    else
      found <~ findById (params_id req) ;;
      match found with
      | None => send 404 (Message false "Task not found")
      | Some task =>
          let isCreator := N.eqb (createdBy task) (user req) in
          let isAssignee := N.eqb (assignedTo task) (user req) in
          if negb isCreator && negb isAssignee
          then send 403 (Message false "You are not authorized to update this task")
          else
            let task := setStatus task status in
            _ <~ save task ;;
            task <~ populate task ;;
            send 200 (TaskBody (Some "Task status updated successfully") (Some task))
      end).

End Controller.

(** ** A schema and sample data *)

Definition isHex (c : ascii) : bool :=
  match Js.radixDigit 16 c with Some _ => true | None => false end.

Fixpoint allHex (s : string) : bool :=
  match s with
  | String c r => isHex c && allHex r
  | EmptyString => true
  end.

(** Modelled from the spec: the schema of [models/Task.js] is not among the
    sources.  [title] and [description] are non-empty text, [dueDate] is a
    date, [priority] is one of low, medium and high, [status] one of pending
    and completed; an ObjectId is cast from its 24 hexadecimal digits. *)
#[local] Instance specSchema : TaskSchema := {|
  castObjectId v :=
    match v with
    | Js.JStr s =>
        if (Z.of_nat (String.length s) =? 24) && allHex s
        then Z.to_N <$> Js.parseDigits 16 None s
        else None
    | _ => None
    end;
  validates t :=
    match title t, description t, dueDate t with
    | Js.JStr a, Js.JStr b, Js.JStr _ =>
        negb (String.eqb a "") && negb (String.eqb b "")
        && Js.includes ["low"; "medium"; "high"] (priority t)
        && Js.includes ["pending"; "completed"] (status t)
    | _, _, _ => false
    end;
  validatesUpdate _ _ _ p s :=
    (bool_decide (p = Js.JUndefined) || Js.includes ["low"; "medium"; "high"] p)
    && (bool_decide (s = Js.JUndefined) || Js.includes ["pending"; "completed"] s);
|}.

(** A runtime in UTC+05:30 whose [Date.parse] knows three dates:
    2024-05-09, 2024-05-10 and 2024-05-11, each at 10:00 local time.  Now
    is 2024-05-10 at 15:30 local time. *)
Definition sampleRuntime : Js.Runtime := {|
  Js.now := 1715335200000;
  Js.localTZA := 19800000;
  Js.dateParse s :=
    if String.eqb s "2024-05-09T10:00:00+05:30" then Some 1715229000000
    else if String.eqb s "2024-05-10T10:00:00+05:30" then Some 1715315400000
    else if String.eqb s "2024-05-11T10:00:00+05:30" then Some 1715401800000
    else None;
|}.

Definition U1 : ObjectId := 1%N.
Definition U2 : ObjectId := 2%N.
Definition U3 : ObjectId := 3%N.

Definition sampleTask (id : ObjectId) (by_ to : ObjectId) (at_ : Z) : Task := {|
  _id := id; title := Js.JStr "Fix bug"; description := Js.JStr "...";
  dueDate := Js.JStr "2024-05-11T10:00:00+05:30"; priority := Js.JStr "high";
  status := Js.JStr "pending"; assignedTo := to; createdBy := by_;
  createdAt := at_;
|}.

Definition sampleUsers : gmap ObjectId (string * string) :=
  <[U1 := ("Ann", "ann@example.com")]>
    (<[U2 := ("Bob", "bob@example.com")]>
       (<[U3 := ("Cy", "cy@example.com")]> ∅)).

(** Five tasks: 10 and 11 from U1 to U2, 12 from U1 to U1, 13 from U2 to
    U1, 14 from U2 to U3. *)
Definition sampleDB : DB := {|
  tasks :=
    <[10%N := sampleTask 10%N U1 U2 100]>
      (<[11%N := sampleTask 11%N U1 U2 300]>
         (<[12%N := sampleTask 12%N U1 U1 200]>
            (<[13%N := sampleTask 13%N U2 U1 500]>
               (<[14%N := sampleTask 14%N U2 U3 400]> ∅))));
  users := sampleUsers;
|}.

Definition emptyBody : Req.Body := {|
  Req.title := Js.JUndefined; Req.description := Js.JUndefined;
  Req.dueDate := Js.JUndefined; Req.priority := Js.JUndefined;
  Req.assignedTo := Js.JUndefined; Req.status := Js.JUndefined;
|}.

Definition sampleRequest (u id : ObjectId) (b : Req.Body)
    (page limit : option string) : Request := {|
  user := u; params_id := id; body := b;
  query := {| Req.page := page; Req.limit := limit |};
  runtime := sampleRuntime; newObjectId := 99%N;
|}.

(** The sample collection with one more task, 20, which U1 assigned to a
    user that does not exist. *)
Definition danglingDB : DB :=
  withTasks sampleDB (<[20%N := sampleTask 20%N U1 7%N 600]> (tasks sampleDB)).

(** A creation payload, due on the day given, assigned to U2. *)
Definition createBody (due : string) : Req.Body := {|
  Req.title := Js.JStr "Fix bug"; Req.description := Js.JStr "...";
  Req.dueDate := Js.JStr due; Req.priority := Js.JStr "high";
  Req.assignedTo := Js.JStr "000000000000000000000002";
  Req.status := Js.JUndefined;
|}.

(** An update payload that sends a title and a due date only. *)
Definition updateBody (due : string) : Req.Body := {|
  Req.title := Js.JStr "Fix the bug"; Req.description := Js.JUndefined;
  Req.dueDate := Js.JStr due; Req.priority := Js.JUndefined;
  Req.assignedTo := Js.JUndefined; Req.status := Js.JUndefined;
|}.

(** A status payload. *)
Definition statusBody (s : Js.Val) : Req.Body := {|
  Req.title := Js.JUndefined; Req.description := Js.JUndefined;
  Req.dueDate := Js.JUndefined; Req.priority := Js.JUndefined;
  Req.assignedTo := Js.JUndefined; Req.status := s;
|}.

Definition yesterday : string := "2024-05-09T10:00:00+05:30".
Definition today : string := "2024-05-10T10:00:00+05:30".
Definition tomorrow : string := "2024-05-11T10:00:00+05:30".

(** ** The properties, stated *)

(** The three operations on one task that admit either participant. *)
Inductive TaskOp : Type := OpGet | OpUpdate | OpStatus.


(** The requester is the task's creator or its assignee. *)
Definition participant (t : Task) (u : ObjectId) : bool :=
  N.eqb (createdBy t) u || N.eqb (assignedTo t) u.

(** The status of a request is pending or completed. *)
Definition validStatus (req : Request) : bool :=
  Js.truthy (Req.status (body req))
  && Js.includes ["pending"; "completed"] (Req.status (body req)).


(** What an operation needs of the user references of the task it found:
    only [getTaskById] reads the populated references. *)
Definition resolved (op : TaskOp) (db : DB) (t : Task) : bool :=
  match op with
  | OpGet => bool_decide (is_Some (users db !! createdBy t))
             && bool_decide (is_Some (users db !! assignedTo t))
  | _ => true
  end.

(** What an operation checks after the authorization, on the task found. *)
Definition accepted `{TaskSchema} (op : TaskOp) (req : Request) (t : Task) : bool :=
  match op with
  | OpGet => true
  | OpUpdate =>
      negb (Js.truthy (Req.dueDate (body req))
            && dueDateInPast (runtime req) (Req.dueDate (body req)))
      && validatesUpdate (Req.title (body req)) (Req.description (body req))
           (Req.dueDate (body req)) (Req.priority (body req))
           (Req.status (body req))
  | OpStatus => validates (setStatus t (Req.status (body req)))
  end.


(** Every document is stored under its own [_id]. *)
Definition wfDB (db : DB) : Prop :=
  map_Forall (fun i t => _id t = i) (tasks db).

(** The documents of a page response. *)
Definition pageDocs (r : Response) : list Task :=
  match json r with
  | PageBody _ _ _ _ data => doc <$> data
  | _ => []
  end.

(** The documents of the collection, in its natural order. *)
Definition stored (db : DB) : list Task := (map_to_list (tasks db)).*2.

(** The three listings. *)
Inductive Listing : Type := AllTasks | AssignedToMe | CreatedByMe.

Definition listingHandler `{TaskSchema} (k : Listing) : Request -> Handler :=
  match k with
  | AllTasks => getTasks
  | AssignedToMe => getAssignedTasks
  | CreatedByMe => getCreatedTasks
  end.

(** The query each listing builds for a user. *)
Definition queryOf (k : Listing) (u : ObjectId) : Query :=
  match k with
  | AllTasks => Or (Field P_createdBy (Is u)) (Field P_assignedTo (Is u))
  | AssignedToMe => Both (Field P_assignedTo (Is u)) (Field P_createdBy (Ne u))
  | CreatedByMe => Field P_createdBy (Is u)
  end.

(** The tasks each listing is to show a user. *)
Definition inListing (k : Listing) (u : ObjectId) (t : Task) : Prop :=
  match k with
  | AllTasks => createdBy t = u \/ assignedTo t = u
  | AssignedToMe => assignedTo t = u /\ createdBy t <> u
  | CreatedByMe => createdBy t = u
  end.

(** A task is listed for a user when some request of this user gets it on
    its page. *)
Definition listedBy `{TaskSchema} (k : Listing) (u : ObjectId) (db : DB)
    (t : Task) : Prop :=
  exists req, user req = u /\ t ∈ pageDocs (fst (listingHandler k req db)).

Definition pageCount (r : Response) : Z :=
  match json r with
  | PageBody count _ _ _ _ => count
  | _ => 0
  end.

(** The page number, page size and skip a listing computes from a
    request. *)
Definition pageOf (req : Request) : Z := Js.parseIntOr (Req.page (query req)) 1.

Definition limitOf (req : Request) : Z := Js.parseIntOr (Req.limit (query req)) 3.

Definition skipOf (req : Request) : Z := (pageOf req - 1) * limitOf req.


(** The five fields a creation requires are there and truthy. *)
Definition requiredPresent (b : Req.Body) : bool :=
  Js.truthy (Req.title b) && Js.truthy (Req.description b)
  && Js.truthy (Req.dueDate b) && Js.truthy (Req.priority b)
  && Js.truthy (Req.assignedTo b).


(** The same request for page [p]. *)
Definition withPage (req : Request) (p : Z) : Request :=
  {| user := user req; params_id := params_id req; body := body req;
     query := {| Req.page := Some (Js.numberToString p);
                 Req.limit := Req.limit (query req) |};
     runtime := runtime req; newObjectId := newObjectId req |}.


(** ** Calls in sequence *)

#[global] Instance Task_eq_dec : EqDecision Task.
Proof. solve_decision. Defined.

(** A call of one of the eight handlers. *)
Inductive Call : Type :=
| CallCreate (req : Request)
| CallList (k : Listing) (req : Request)
| CallGet (req : Request)
| CallUpdate (req : Request)
| CallDelete (req : Request)
| CallStatus (req : Request).

Definition call `{TaskSchema} (c : Call) : Handler :=
  match c with
  | CallCreate req => createTask req
  | CallList k req => listingHandler k req
  | CallGet req => getTaskById req
  | CallUpdate req => updateTask req
  | CallDelete req => deleteTask req
  | CallStatus req => updateTaskStatus req
  end.

(** The database after a sequence of calls, each on the database the call
    before it left. *)
Fixpoint exec `{TaskSchema} (cs : list Call) (db : DB) : DB :=
  match cs with
  | [] => db
  | c :: cs' => exec cs' (snd (call c db))
  end.

(** The call is a [deleteTask] of task [i] by [owner]. *)
Definition deletesFor (i owner : ObjectId) (c : Call) : Prop :=
  match c with
  | CallDelete req => params_id req = i /\ user req = owner
  | _ => False
  end.

(** The authenticated user of a call. *)
Definition requester (c : Call) : ObjectId :=
  match c with
  | CallCreate req | CallList _ req | CallGet req | CallUpdate req
  | CallDelete req | CallStatus req => user req
  end.

(** The call only reads. *)
Definition readOnly (c : Call) : bool :=
  match c with
  | CallList _ _ | CallGet _ => true
  | _ => false
  end.

Definition pageTotal (r : Response) : Z :=
  match json r with
  | PageBody _ total _ _ _ => total
  | _ => 0
  end.

(** The same request with another [status] in its body. *)
Definition withStatus (req : Request) (s : Js.Val) : Request :=
  {| user := user req; params_id := params_id req;
     body := {| Req.title := Req.title (body req);
                Req.description := Req.description (body req);
                Req.dueDate := Req.dueDate (body req);
                Req.priority := Req.priority (body req);
                Req.assignedTo := Req.assignedTo (body req);
                Req.status := s |};
     query := query req; runtime := runtime req;
     newObjectId := newObjectId req |}.

(** A value is one of the falsy values a body can carry. *)
Definition falsy (v : Js.Val) : Prop :=
  v = Js.JUndefined \/ v = Js.JNull \/ v = Js.JBool false
  \/ v = Js.JNum 0 \/ v = Js.JStr "".

(** The same database with other users. *)
Definition withUsers (db : DB) (us : gmap ObjectId (string * string)) : DB :=
  {| tasks := tasks db; users := us |}.

(** The document [updateTask] leaves in place of [t]. *)
Definition updatedBy (req : Request) (t : Task) : Task :=
  {| _id := _id t; title := Req.title (body req);
     description := Req.description (body req);
     dueDate := Req.dueDate (body req);
     priority := Req.priority (body req);
     status := Req.status (body req);
     assignedTo := assignedTo t; createdBy := createdBy t;
     createdAt := createdAt t |}.

(** ** The routers *)

Module Router.

(** The request methods the routers are asked for. *)
Inductive Method : Type := GET | HEAD | POST | PUT | DELETE | PATCH.

#[global] Instance Method_eq_dec : EqDecision Method.
Proof. solve_decision. Defined.

(** A route answers the method it was registered for; a route registered
    for GET answers HEAD as well. *)
Definition handlesMethod (registered asked : Method) : bool :=
  bool_decide (asked = registered)
  || (bool_decide (asked = HEAD) && bool_decide (registered = GET)).

(** A segment of a route's path: literal text, or a parameter [:name]. *)
Inductive Segment : Type :=
| Lit (s : string)
| Param (name : string).

(** [express.Router()] matches literal text without regard to case. *)
Definition toLower (c : ascii) : ascii :=
  let n := nat_of_ascii c in
  if (65 <=? Z.of_nat n) && (Z.of_nat n <=? 90) then ascii_of_nat (n + 32) else c.

Fixpoint lower (s : string) : string :=
  match s with
  | String c r => String (toLower c) (lower r)
  | EmptyString => EmptyString
  end.

(** A request path below the router's mount point is the list of its
    segments.  A pattern matches a path of as many segments: a literal
    matches its text, a parameter any segment that is not empty, of which
    it keeps the text. *)
Fixpoint matchPath (pat : list Segment) (path : list string)
    : option (list (string * string)) :=
  match pat, path with
  | [], [] => Some []
  | Lit s :: pat', x :: path' =>
      if String.eqb (lower s) (lower x) then matchPath pat' path' else None
  | Param name :: pat', x :: path' =>
      if String.eqb x "" then None
      else cons (name, x) <$> matchPath pat' path'
  | _, _ => None
  end.

(** A layer of a router: [router.use(f)], which every request passes, or
    [router.METHOD(path, f1, ..., fn)]. *)
Inductive Layer (F : Type) : Type :=
| Use (f : F)
| Route (m : Method) (path : list Segment) (fs : list F).

Arguments Use {F} f.
Arguments Route {F} m path fs.

(** The functions of one route that run, in order, when [next f] tells
    whether [f] calls [next()] rather than answering; and whether the last
    one called [next()]. *)
Fixpoint runStack {F} (next : F -> bool) (fs : list F) : list F * bool :=
  match fs with
  | [] => ([], true)
  | f :: fs' =>
      if next f
      then let '(ran, passed) := runStack next fs' in (f :: ran, passed)
      else ([f], false)
  end.

(** The functions a request runs through, each with the parameters of its
    route: the layers are tried in the order of their registration, and the
    first function that answers ends the request. *)
Fixpoint dispatch {F} (next : F -> bool) (layers : list (Layer F))
    (m : Method) (path : list string) : list (F * list (string * string)) :=
  match layers with
  | [] => []
  | Use f :: layers' =>
      (f, []) :: (if next f then dispatch next layers' m path else [])
  | Route m' pat fs :: layers' =>
      match (if handlesMethod m' m then matchPath pat path else None) with
      | Some params =>
          let '(ran, passed) := runStack next fs in
          ((fun f => (f, params)) <$> ran)
          ++ (if passed then dispatch next layers' m path else [])
      | None => dispatch next layers' m path
      end
  end.

End Router.

Module TaskRoutes.

Import Router.

(** The functions [routes/taskRoutes.js] registers. *)
Inductive Fn : Type :=
| Auth
| CreateTask
| GetTasks
| GetAssignedTasks
| GetCreatedTasks
| GetTaskById
| UpdateTask
| DeleteTask
| UpdateTaskStatus.

#[global] Instance Fn_eq_dec : EqDecision Fn.
Proof. solve_decision. Defined.

Definition router : list (Layer Fn) :=
  [ Use Auth;
    Route POST [] [CreateTask];
    Route GET [] [GetTasks];
    Route GET [Lit "assigned"] [GetAssignedTasks];
    Route GET [Lit "created"] [GetCreatedTasks];
    Route GET [Param "id"] [GetTaskById];
    Route PUT [Param "id"] [UpdateTask];
    Route DELETE [Param "id"] [DeleteTask];
    Route PATCH [Param "id"; Lit "status"] [UpdateTaskStatus] ].

(** [auth] calls [next()] for a request it accepts ([middleware/auth.js]
    decides which); every handler answers. *)
Definition next (accepted : bool) (f : Fn) : bool :=
  match f with
  | Auth => accepted
  | _ => false
  end.

Definition run (accepted : bool) (m : Method) (path : list string)
    : list (Fn * list (string * string)) :=
  dispatch (next accepted) router m path.

End TaskRoutes.

Module AuthRoutes.

Import Router.

(** The functions [routes/authRoutes.js] registers. *)
Inductive Fn : Type :=
| Auth
| Register
| Login
| GetUsers
| UpdateProfile
| DeleteSelf
| DeleteUser.

#[global] Instance Fn_eq_dec : EqDecision Fn.
Proof. solve_decision. Defined.

Definition router : list (Layer Fn) :=
  [ Route POST [Lit "register"] [Register];
    Route POST [Lit "login"] [Login];
    Route GET [Lit "users"] [Auth; GetUsers];
    Route PUT [Lit "profile"] [Auth; UpdateProfile];
    Route DELETE [Lit "profile"] [Auth; DeleteSelf];
    Route DELETE [Lit "users"; Param "id"] [Auth; DeleteUser] ].

Definition next (accepted : bool) (f : Fn) : bool :=
  match f with
  | Auth => accepted
  | _ => false
  end.

Definition run (accepted : bool) (m : Method) (path : list string)
    : list (Fn * list (string * string)) :=
  dispatch (next accepted) router m path.

(** The functions that need no authenticated user. *)
Definition open (f : Fn) : bool :=
  match f with
  | Register | Login => true
  | _ => false
  end.

End AuthRoutes.

(** ** The admin seed script *)

Module Seed.

(** A User document, as far as [seedAdmin.js] writes and reads it. *)
Record User : Type := {
  name : string;
  email : string;
  password : string;
  role : string;
}.

#[global] Instance User_eq_dec : EqDecision User.
Proof. solve_decision. Defined.

(** What the schema of [models/User.js] decides: which document the
    validators accept, and what is stored for a password (modelled from the
    spec, which names password hashing as the model's part). *)
Class UserSchema : Type := {
  validates : User -> bool;
  hashPassword : string -> string;
}.

(** What the [catch] block can receive. *)
Inductive Failure : Type :=
| ConnectionError
| ValidationError
| DuplicateKey.

(** A line the script prints: [console.log], or [console.error('Error:',
    error.message)]. *)
Inductive Line : Type :=
| Log (s : string)
| Error (e : Failure).

(** How a run ends: the code given to [process.exit], the lines printed,
    and the User collection it leaves. *)
Record Outcome : Type := {
  exitCode : Z;
  lines : list Line;
  users : gmap ObjectId User;
}.

Definition adminEmail : string := "admin@taskmanager.com".

(** [User.findOne({ email })]: the first document with this email. *)
Definition findOne (e : string) (us : gmap ObjectId User) : option User :=
  head (filter (fun u => email u = e) (map_to_list us).*2).

Section Seed.

Context `{UserSchema}.

(** [User.create(doc)]: validated, then stored with its password hashed,
    under the driver's new [_id]. *)
Definition create (newId : ObjectId) (u : User) (us : gmap ObjectId User)
    : Failure + (User * gmap ObjectId User) :=
  if negb (validates u) then inl ValidationError
  else
    match us !! newId with
    | Some _ => inl DuplicateKey
    | None =>
        let stored := {| name := name u; email := email u;
                         password := hashPassword (password u);
                         role := role u |} in
        inr (stored, <[newId := stored]> us)
    end.

(** [seedAdmin()], on a database that can be reached or not. *)
Definition seedAdmin (connected : bool) (newId : ObjectId)
    (us : gmap ObjectId User) : Outcome :=
  if negb connected
  then {| exitCode := 1; lines := [Error ConnectionError]; users := us |}
  else
    match findOne adminEmail us with
    | Some existingAdmin =>
        {| exitCode := 0;
           lines := [Log "MongoDB Connected";
                     Log "Admin user already exists!";
                     Log ("Email: " ++ email existingAdmin);
                     Log ("Role: " ++ role existingAdmin)];
           users := us |}
    | None =>
        match create newId {| name := "Admin User"; email := adminEmail;
                              password := "Admin@123"; role := "admin" |} us with
        | inr (admin, us') =>
            {| exitCode := 0;
               lines := [Log "MongoDB Connected";
                         Log "✅ Admin user created successfully!";
                         Log "Email: admin@taskmanager.com";
                         Log "Password: Admin@123";
                         Log ("Role: " ++ role admin)];
               users := us' |}
        | inl e =>
            {| exitCode := 1;
               lines := [Log "MongoDB Connected"; Error e];
               users := us |}
        end
    end.

End Seed.

(** A schema that accepts every document and stores a password behind a
    prefix, and a collection with one ordinary user. *)
#[local] Instance sampleUserSchema : UserSchema := {|
  validates _ := true;
  hashPassword p := "hash:" ++ p;
|}.

Definition sampleUsers : gmap ObjectId User :=
  <[1%N := {| name := "Ann"; email := "ann@example.com";
              password := "hash:secret"; role := "user" |}]> ∅.

(** The same collection after an ordinary user registered with the admin's
    email. *)
Definition squattedUsers : gmap ObjectId User :=
  <[2%N := {| name := "Eve"; email := adminEmail;
              password := "hash:guess"; role := "user" |}]> sampleUsers.

End Seed.

(** Calls of U3, who has no part in task 10: an update, a status change,
    a delete, a creation and a listing. *)
Definition strangerCalls : list Call :=
  [ CallUpdate (sampleRequest U3 10%N (updateBody tomorrow) None None);
    CallStatus (sampleRequest U3 10%N (statusBody (Js.JStr "completed")) None None);
    CallDelete (sampleRequest U3 10%N emptyBody None None);
    CallCreate (sampleRequest U3 0%N (createBody today) None None);
    CallList AllTasks (sampleRequest U3 0%N emptyBody None None) ].

(** A task of U1 for U2 that was due yesterday, and the collection that
    holds it alone. *)
Definition overdueTask : Task := {|
  _id := 30%N; title := Js.JStr "Fix bug"; description := Js.JStr "...";
  dueDate := Js.JStr yesterday; priority := Js.JStr "high";
  status := Js.JStr "pending"; assignedTo := U2; createdBy := U1;
  createdAt := 50;
|}.

Definition overdueDB : DB :=
  {| tasks := <[30%N := overdueTask]> ∅; users := sampleUsers |}.

(** The payload that sends back the fields of the overdue task, with the
    status completed. *)
Definition resendBody : Req.Body := {|
  Req.title := Js.JStr "Fix bug"; Req.description := Js.JStr "...";
  Req.dueDate := Js.JStr yesterday; Req.priority := Js.JStr "high";
  Req.assignedTo := Js.JUndefined; Req.status := Js.JStr "completed";
|}.

(** The payload that sends back the fields of the sample tasks, with the
    status completed. *)
Definition resendSampleBody : Req.Body := {|
  Req.title := Js.JStr "Fix bug"; Req.description := Js.JStr "...";
  Req.dueDate := Js.JStr tomorrow; Req.priority := Js.JStr "high";
  Req.assignedTo := Js.JUndefined; Req.status := Js.JStr "completed";
|}.

(** Four calls on task 10 of the sample collection: its assignee U2 marks
    it completed, renames it, and tries to delete it; U3 tries to delete it
    too. *)
Definition sampleCalls : list Call :=
  [ CallStatus (sampleRequest U2 10%N (statusBody (Js.JStr "completed")) None None);
    CallUpdate (sampleRequest U2 10%N (updateBody tomorrow) None None);
    CallDelete (sampleRequest U2 10%N emptyBody None None);
    CallDelete (sampleRequest U3 10%N emptyBody None None) ].

(** ** Proofs *)

Ltac run_handler :=
  unfold createTask, listTasks, getTaskById, updateTask, deleteTask,
    updateTaskStatus, run, bind, send, throw, ret, idOf, populate,
    populateFound, TaskModel.findById, TaskModel.findByIdAndDelete,
    TaskModel.findByIdAndUpdate, TaskModel.save, TaskModel.create,
    TaskModel.countDocuments, TaskModel.find; cbn beta iota.

Section Authorization.

Context `{TaskSchema}.

Lemma validStatus_spec req :
  validStatus req = true <->
  Req.status (body req) = Js.JStr "pending"
  \/ Req.status (body req) = Js.JStr "completed".
Proof.
  unfold validStatus. destruct (Req.status (body req)) as [| |b|n|s|s]; simpl;
    try (rewrite ?andb_false_r; split; [discriminate | intros [?|?]; discriminate]).
  rewrite orb_false_r. split.
  - intros Hv. apply andb_true_iff in Hv as [_ Hv].
    apply orb_true_iff in Hv as [Hv|Hv]; apply String.eqb_eq in Hv; subst; auto.
  - intros [Hv|Hv]; inversion Hv; reflexivity.
Qed.

Lemma updateTaskStatus_invalid req db :
  validStatus req = false ->
  updateTaskStatus req db =
    ({| statusCode := 400;
        json := Message false "Please provide a valid status (pending or completed)" |},
     db).
Proof.
  unfold validStatus. intros Hv. run_handler.
  destruct (Js.truthy _), (Js.includes _ _); simpl in *; congruence.
Qed.

(** What [getTaskById] answers, case by case. *)
Lemma getTaskById_outcome req db :
  fst (getTaskById req db) =
    match tasks db !! params_id req with
    | None => {| statusCode := 404; json := Message false "Task not found" |}
    | Some t =>
        match users db !! createdBy t, users db !! assignedTo t with
        | Some (cn, ce), Some (an, ae) =>
            if participant t (user req)
            then {| statusCode := 200;
                    json := TaskBody None (Some
                      {| doc := t;
                         assignedToUser := Some {| user_id := assignedTo t; name := an; email := ae |};
                         createdByUser := Some {| user_id := createdBy t; name := cn; email := ce |} |}) |}
            else {| statusCode := 403;
                    json := Message false "You are not authorized to view this task" |}
        | _, _ => {| statusCode := 500; json := ServerError TypeError |}
        end
    end
  /\ snd (getTaskById req db) = db.
Proof.
  run_handler. destruct (tasks db !! params_id req) as [t|]; [|done].
  unfold populated, summary. cbn.
  destruct (users db !! createdBy t) as [[cn ce]|]; [|done].
  cbn. destruct (users db !! assignedTo t) as [[an ae]|]; [|done].
  cbn. unfold participant.
  by destruct (N.eqb (createdBy t) (user req)), (N.eqb (assignedTo t) (user req)).
Qed.

(** What [updateTask] answers, case by case. *)
Lemma updateTask_outcome req db :
  match tasks db !! params_id req with
  | None =>
      updateTask req db =
        ({| statusCode := 404; json := Message false "Task not found" |}, db)
  | Some t =>
      if negb (participant t (user req))
      then updateTask req db =
             ({| statusCode := 403;
                 json := Message false "You are not authorized to update this task" |}, db)
      else if Js.truthy (Req.dueDate (body req))
              && dueDateInPast (runtime req) (Req.dueDate (body req))
      then updateTask req db =
             ({| statusCode := 400;
                 json := Message false "Due date cannot be in the past" |}, db)
      else if negb (validatesUpdate (Req.title (body req)) (Req.description (body req))
                      (Req.dueDate (body req)) (Req.priority (body req))
                      (Req.status (body req)))
      then updateTask req db =
             ({| statusCode := 500; json := ServerError ValidationError |}, db)
      else
        let t' := {| _id := _id t; title := Req.title (body req);
                     description := Req.description (body req);
                     dueDate := Req.dueDate (body req);
                     priority := Req.priority (body req);
                     status := Req.status (body req);
                     assignedTo := assignedTo t; createdBy := createdBy t;
                     createdAt := createdAt t |} in
        statusCode (fst (updateTask req db)) = 200
        /\ (exists p, json (fst (updateTask req db)) =
                        TaskBody (Some "Task updated successfully") (Some p)
                      /\ doc p = t')
        /\ snd (updateTask req db) = withTasks db (<[params_id req := t']> (tasks db))
  end.
Proof.
  run_handler. destruct (tasks db !! params_id req) as [t|] eqn:Ht; [|done].
  unfold participant.
  destruct (N.eqb (createdBy t) (user req)), (N.eqb (assignedTo t) (user req)); cbn;
    try done;
    (destruct (Js.truthy _ && dueDateInPast _ _); [done|];
     destruct (validatesUpdate _ _ _ _ _); cbn; [|done];
     rewrite Ht; cbn; eauto).
Qed.

(** What [updateTaskStatus] answers once the status is valid. *)
Lemma updateTaskStatus_outcome req db :
  validStatus req = true ->
  match tasks db !! params_id req with
  | None =>
      updateTaskStatus req db =
        ({| statusCode := 404; json := Message false "Task not found" |}, db)
  | Some t =>
      if negb (participant t (user req))
      then updateTaskStatus req db =
             ({| statusCode := 403;
                 json := Message false "You are not authorized to update this task" |}, db)
      else if negb (validates (setStatus t (Req.status (body req))))
      then updateTaskStatus req db =
             ({| statusCode := 500; json := ServerError ValidationError |}, db)
      else
        let t' := setStatus t (Req.status (body req)) in
        statusCode (fst (updateTaskStatus req db)) = 200
        /\ (exists p, json (fst (updateTaskStatus req db)) =
                        TaskBody (Some "Task status updated successfully") (Some p)
                      /\ doc p = t')
        /\ snd (updateTaskStatus req db) = withTasks db (<[_id t := t']> (tasks db))
  end.
Proof.
  unfold validStatus. intros Hv. apply andb_true_iff in Hv as [Hv1 Hv2].
  run_handler. rewrite Hv1, Hv2. cbn.
  destruct (tasks db !! params_id req) as [t|] eqn:Ht; [|done].
  unfold participant.
  destruct (N.eqb (createdBy t) (user req)), (N.eqb (assignedTo t) (user req)); cbn;
    try done;
    (destruct (validates _); cbn; [|done]; eauto).
Qed.

(** What [deleteTask] answers, case by case. *)
Lemma deleteTask_outcome req db :
  deleteTask req db =
    match tasks db !! params_id req with
    | None => ({| statusCode := 404; json := Message false "Task not found" |}, db)
    | Some t =>
        if negb (N.eqb (createdBy t) (user req))
        then ({| statusCode := 403;
                 json := Message false "Only the task creator can delete this task" |}, db)
        else ({| statusCode := 200; json := Message true "Task deleted successfully" |},
              withTasks db (delete (params_id req) (tasks db)))
    end.
Proof.
  run_handler. destruct (tasks db !! params_id req) as [t|]; [|done].
  by destruct (N.eqb (createdBy t) (user req)).
Qed.


(** C2.  On a task that exists, [deleteTask] answers Forbidden to its
    assignee when the assignee is not the creator, and indeed to everyone
    but the creator, and changes nothing; for the creator it succeeds, and
    a [getTaskById] of the same id afterwards answers NotFound to
    everyone. *)
Theorem deleteTask_creator_only req db t :
  tasks db !! params_id req = Some t ->
  (user req = assignedTo t -> user req <> createdBy t ->
   errorKind (fst (deleteTask req db)) = Some Forbidden)
  /\ (user req <> createdBy t ->
      errorKind (fst (deleteTask req db)) = Some Forbidden
      /\ snd (deleteTask req db) = db)
  /\ (user req = createdBy t ->
      succeeded (fst (deleteTask req db)) = true
      /\ tasks (snd (deleteTask req db)) !! params_id req = None
      /\ forall req',
           params_id req' = params_id req ->
           errorKind (fst (getTaskById req' (snd (deleteTask req db)))) = Some NotFound).
Proof.
  intros Ht. rewrite deleteTask_outcome, Ht.
  assert (Hne : user req <> createdBy t ->
                negb (N.eqb (createdBy t) (user req)) = true).
  { intros Hne. apply negb_true_iff, N.eqb_neq. congruence. }
  split; [|split].
  - intros _ Hu. by rewrite (Hne Hu).
  - intros Hu. by rewrite (Hne Hu).
  - intros ->. rewrite N.eqb_refl. cbn.
    assert (Hgone : delete (params_id req) (tasks db) !! params_id req = None)
      by apply lookup_delete_eq.
    repeat split; [done|].
    intros req' Hid. destruct (getTaskById_outcome req' (withTasks db (delete (params_id req) (tasks db)))) as [-> _].
    cbn. rewrite Hid, Hgone. reflexivity.
Qed.

(** C10.  [updateTaskStatus] checks the status before it looks the task
    up: a request whose status is missing, or is anything but the string
    pending or the string completed, is answered InvalidInput, whatever
    the collection holds (so also when the id is not there); the answer
    does not depend on the database, and the database is unchanged. *)
Theorem updateTaskStatus_status_before_lookup req db :
  Req.status (body req) <> Js.JStr "pending" ->
  Req.status (body req) <> Js.JStr "completed" ->
  errorKind (fst (updateTaskStatus req db)) = Some InvalidInput
  /\ snd (updateTaskStatus req db) = db
  /\ (forall db', fst (updateTaskStatus req db') = fst (updateTaskStatus req db)).
Proof.
  intros Hp Hc.
  assert (Hv : validStatus req = false).
  { destruct (validStatus req) eqn:E; [|done].
    apply validStatus_spec in E as [?|?]; done. }
  repeat split; [| |intros db']; by rewrite !updateTaskStatus_invalid.
Qed.

End Authorization.

(** *** parseInt reads back what String writes *)

Ltac eval_chars :=
  repeat match goal with
    | |- context [Js.isWhiteSpace ?c] =>
        let v := eval vm_compute in (Js.isWhiteSpace c) in
        change (Js.isWhiteSpace c) with v
    | |- context [Js.radixDigit ?R ?c] =>
        let v := eval vm_compute in (Js.radixDigit R c) in
        change (Js.radixDigit R c) with v
    end.

Lemma parseDigits_acc d acc :
  Js.parseDigits 10 (Some (Z.pos acc)) (DecimalString.NilEmpty.string_of_uint d)
  = Some (Z.pos (Pos.of_uint_acc d acc)).
Proof.
  revert acc.
  induction d; intros acc;
    cbn [DecimalString.NilEmpty.string_of_uint Js.parseDigits Pos.of_uint_acc];
    [reflexivity|..];
    eval_chars; cbn [default]; rewrite <- IHd; do 2 f_equal; unfold id; lia.
Qed.

Lemma parseDigits_zero d :
  Js.parseDigits 10 (Some 0) (DecimalString.NilEmpty.string_of_uint d)
  = Some (Z.of_N (N.of_uint d)).
Proof.
  induction d;
    cbn [DecimalString.NilEmpty.string_of_uint Js.parseDigits N.of_uint];
    [reflexivity|..];
    eval_chars; cbn [default]; unfold id; rewrite Z.mul_0_l, Z.add_0_l;
    first [exact IHd | apply parseDigits_acc].
Qed.

Lemma sign_plus (o : option Z) :
  match o with Some m => Some (1 * m) | None => None end = o.
Proof. destruct o as [m|]; [|done]. by destruct m. Qed.

Lemma sign_minus (o : option Z) :
  match o with Some m => Some (-1 * m) | None => None end = Z.opp <$> o.
Proof. destruct o as [m|]; [|done]. by destruct m. Qed.

Lemma parseInt_digits d :
  d <> Decimal.Nil ->
  Js.parseInt (DecimalString.NilEmpty.string_of_uint d) = Some (Z.of_N (N.of_uint d)).
Proof.
  intros Hd. rewrite <- parseDigits_zero.
  destruct d as [|d|d|d|d|d|d|d|d|d|d]; [done|..].
  1: destruct d.
  all: unfold Js.parseInt;
    cbn [DecimalString.NilEmpty.string_of_uint Js.trimStart Js.parseDigits].
  all: eval_chars; cbn [default]; unfold id.
  all: apply sign_plus.
Qed.

Lemma parseInt_minus_digits d :
  d <> Decimal.Nil ->
  Js.parseInt (String "-" (DecimalString.NilEmpty.string_of_uint d))
  = Some (- Z.of_N (N.of_uint d)).
Proof.
  intros Hd.
  change (Some (- Z.of_N (N.of_uint d))) with (Z.opp <$> Some (Z.of_N (N.of_uint d))).
  rewrite <- parseDigits_zero.
  destruct d as [|d|d|d|d|d|d|d|d|d|d]; [done|..].
  1: destruct d.
  all: unfold Js.parseInt;
    cbn [DecimalString.NilEmpty.string_of_uint Js.trimStart Js.parseDigits].
  all: eval_chars; cbn [default]; unfold id.
  all: apply sign_minus.
Qed.

Lemma to_uint_nonnil (n : N) : N.to_uint n <> Decimal.Nil.
Proof.
  destruct n as [|p]; [done|]. cbn. apply DecimalPos.Unsigned.to_uint_nonnil.
Qed.

(** [parseInt(String(n))] is [n], for every integer [n]. *)
Lemma parseInt_numberToString n :
  Js.parseInt (Js.numberToString n) = Some n.
Proof.
  unfold Js.numberToString. destruct (n <? 0) eqn:Hn.
  - apply Z.ltb_lt in Hn.
    rewrite parseInt_minus_digits by apply to_uint_nonnil.
    rewrite DecimalN.Unsigned.of_to. f_equal. lia.
  - apply Z.ltb_ge in Hn.
    rewrite parseInt_digits by apply to_uint_nonnil.
    rewrite DecimalN.Unsigned.of_to. f_equal. lia.
Qed.

Lemma parseIntOr_numberToString n d :
  n <> 0 -> Js.parseIntOr (Some (Js.numberToString n)) d = n.
Proof.
  intros Hn. unfold Js.parseIntOr. cbn [Js.queryToString].
  rewrite parseInt_numberToString.
  destruct (n =? 0) eqn:E; [apply Z.eqb_eq in E; done | done].
Qed.

Lemma parseIntOr_absent d : Js.parseIntOr None d = d.
Proof. reflexivity. Qed.

(** *** Listings *)

#[local] Instance newerFirst_total : Total newerFirst.
Proof. intros a b. unfold newerFirst. lia. Qed.

#[local] Instance newerFirst_trans : Transitive newerFirst.
Proof. intros a b c. unfold newerFirst. lia. Qed.

Lemma elem_of_stored db t :
  t ∈ stored db <-> exists i, tasks db !! i = Some t.
Proof.
  unfold stored. rewrite list_elem_of_fmap. split.
  - intros [[i t'] [-> Hin]]. exists i. by apply elem_of_map_to_list in Hin.
  - intros [i Hi]. exists (i, t). split; [done|]. by apply elem_of_map_to_list.
Qed.

Lemma matching_Permutation q db :
  matching q db ≡ₚ filter (fun t => matches q t = true) (stored db).
Proof. apply merge_sort_Permutation. Qed.

Lemma matching_Sorted q db : StronglySorted newerFirst (matching q db).
Proof. apply StronglySorted_merge_sort; apply _. Qed.

Lemma elem_of_matching q db t :
  t ∈ matching q db <-> t ∈ stored db /\ matches q t = true.
Proof.
  rewrite matching_Permutation, list_elem_of_filter. tauto.
Qed.

Lemma matches_queryOf k u t :
  matches (queryOf k u) t = true <-> inListing k u t.
Proof.
  destruct k; cbn.
  - rewrite orb_true_iff, !N.eqb_eq. tauto.
  - rewrite andb_true_iff, negb_true_iff, N.eqb_eq, N.eqb_neq. tauto.
  - apply N.eqb_eq.
Qed.

Lemma populateAll_spec l db :
  populateAll l db = (inr (populated db <$> l), db).
Proof.
  induction l as [|t l IH]; [done|].
  cbn [populateAll]. unfold bind, populate, ret. by rewrite IH.
Qed.

Section Listing.

Context `{TaskSchema}.

Lemma listingHandler_listTasks k req :
  listingHandler k req = listTasks (queryOf k (user req)) req.
Proof. by destruct k. Qed.

(** What a listing answers: the page cut from the matching documents, or
    the store's refusal of a negative skip. *)
Lemma listTasks_outcome q req db :
  let page := Js.parseIntOr (Req.page (query req)) 1 in
  let limit := Js.parseIntOr (Req.limit (query req)) 3 in
  let skip := (page - 1) * limit in
  listTasks q req db =
    (match window limit skip (matching q db) with
     | Some w =>
         {| statusCode := 200;
            json := PageBody (Z.of_nat (length w))
                      (Z.of_nat (length (matching q db))) page
                      (- ((- Z.of_nat (length (matching q db))) / limit))
                      (populated db <$> w) |}
     | None => {| statusCode := 500; json := ServerError MongoServerError |}
     end, db).
Proof.
  intros page limit skip. run_handler. fold page limit skip.
  destruct (window limit skip (matching q db)) as [w|]; [|done].
  rewrite populateAll_spec. by rewrite length_fmap.
Qed.

Lemma pageDocs_listTasks q req db t :
  t ∈ pageDocs (fst (listTasks q req db)) -> t ∈ matching q db.
Proof.
  rewrite listTasks_outcome. cbn [fst].
  unfold window. destruct (_ <? 0); [by intros ?%elem_of_nil|].
  cbn [pageDocs json]. rewrite <- list_fmap_compose, list_fmap_id.
  destruct (_ =? 0).
  - apply subseteq_drop.
  - intros Hin%subseteq_take. by apply subseteq_drop in Hin.
Qed.

Lemma window_in_range limit skip (l : list Task) :
  0 <= skip -> 1 <= limit ->
  window limit skip l = Some (take (Z.to_nat limit) (drop (Z.to_nat skip) l)).
Proof.
  intros Hs Hl. unfold window.
  destruct (skip <? 0) eqn:E1; [apply Z.ltb_lt in E1; lia|].
  destruct (limit =? 0) eqn:E2; [apply Z.eqb_eq in E2; lia|].
  by rewrite Z.abs_eq by lia.
Qed.

(** A request of user [u] whose first page is long enough for the whole
    listing. *)
Lemma listedBy_whole k u db t :
  t ∈ matching (queryOf k u) db -> listedBy k u db t.
Proof.
  intros Hin.
  set (n := Z.of_nat (length (matching (queryOf k u) db)) + 1).
  exists {| user := u; params_id := 0%N; body := emptyBody;
            query := {| Req.page := None; Req.limit := Some (Js.numberToString n) |};
            runtime := sampleRuntime; newObjectId := 0%N |}.
  split; [done|].
  rewrite listingHandler_listTasks, listTasks_outcome. cbn [fst user query Req.page Req.limit].
  rewrite parseIntOr_absent, parseIntOr_numberToString by (unfold n; lia).
  rewrite window_in_range by (unfold n; lia).
  cbn [pageDocs json]. rewrite <- list_fmap_compose, list_fmap_id.
  change (Z.to_nat ((1 - 1) * n)) with 0%nat. rewrite drop_0, take_ge; [done|].
  unfold n. lia.
Qed.

(** C3.  A task is on some page of a listing for user [u] exactly when it
    is stored and, for the assigned-to-me listing, [assignedTo] is [u] and
    [createdBy] is not; for the created-by-me listing, [createdBy] is [u];
    for the all-tasks listing, [createdBy] or [assignedTo] is [u].  So a
    task that [u] created for themself is never in the assigned-to-me
    listing and always in the created-by-me listing. *)
Theorem listings_show_their_tasks u db t :
  (listedBy AssignedToMe u db t <->
   t ∈ stored db /\ assignedTo t = u /\ createdBy t <> u)
  /\ (listedBy CreatedByMe u db t <-> t ∈ stored db /\ createdBy t = u)
  /\ (listedBy AllTasks u db t <->
      t ∈ stored db /\ (createdBy t = u \/ assignedTo t = u))
  /\ (createdBy t = u /\ assignedTo t = u ->
      ~ listedBy AssignedToMe u db t
      /\ (t ∈ stored db -> listedBy CreatedByMe u db t)).
Proof.
  assert (Hk : forall k, listedBy k u db t <-> t ∈ stored db /\ inListing k u t).
  { intros k. rewrite <- matches_queryOf, <- elem_of_matching. split.
    - intros (req & <- & Hin). rewrite listingHandler_listTasks in Hin.
      by apply pageDocs_listTasks in Hin.
    - apply listedBy_whole. }
  pose proof (Hk AssignedToMe) as Ha. pose proof (Hk CreatedByMe) as Hc.
  pose proof (Hk AllTasks) as Hall. cbn [inListing] in *.
  repeat split; tauto.
Qed.



(** [Math.ceil(total / limit)] is the least number of pages of [limit]
    documents that hold [total] documents. *)
Lemma ceil_bounds total limit :
  0 <= total -> 1 <= limit ->
  let pages := - ((- total) / limit) in
  0 <= pages /\ (pages - 1) * limit < total <= pages * limit.
Proof.
  intros Ht Hl pages.
  pose proof (Z.div_mod (- total) limit ltac:(lia)) as Hdm.
  pose proof (Z.mod_pos_bound (- total) limit ltac:(lia)) as Hm.
  unfold pages. nia.
Qed.

Lemma listTasks_page q req db :
  0 <= skipOf req -> 1 <= limitOf req ->
  fst (listTasks q req db) =
    let w := take (Z.to_nat (limitOf req)) (drop (Z.to_nat (skipOf req)) (matching q db)) in
    {| statusCode := 200;
       json := PageBody (Z.of_nat (length w)) (Z.of_nat (length (matching q db)))
                 (pageOf req)
                 (- ((- Z.of_nat (length (matching q db))) / limitOf req))
                 (populated db <$> w) |}.
Proof.
  intros Hs Hl. rewrite listTasks_outcome. cbn [fst].
  fold (pageOf req) (limitOf req) (skipOf req).
  by rewrite window_in_range.
Qed.



End Listing.

(** *** Page and limit *)

Section PageAndLimit.

Context `{TaskSchema}.


End PageAndLimit.

(** *** Due dates *)


Section DueDate.

Context `{TaskSchema}.


(** What [createTask] answers, case by case. *)
Lemma createTask_outcome req db :
  createTask req db =
    if negb (requiredPresent (body req))
    then ({| statusCode := 400;
             json := Message false "Please provide all required fields" |}, db)
    else if dueDateInPast (runtime req) (Req.dueDate (body req))
    then ({| statusCode := 400;
             json := Message false "Due date cannot be in the past" |}, db)
    else
      match castObjectId (Req.assignedTo (body req)) with
      | None => ({| statusCode := 500; json := ServerError ValidationError |}, db)
      | Some a =>
          let t := TaskModel.newDocument (runtime req) (newObjectId req)
                     (Req.title (body req)) (Req.description (body req))
                     (Req.dueDate (body req)) (Req.priority (body req))
                     a (user req) in
          if negb (validates t)
          then ({| statusCode := 500; json := ServerError ValidationError |}, db)
          else
            match tasks db !! newObjectId req with
            | Some _ => ({| statusCode := 500; json := ServerError DuplicateKey |}, db)
            | None =>
                ({| statusCode := 201;
                    json := TaskBody (Some "Task created successfully")
                              (Some (populated db t)) |},
                 withTasks db (<[newObjectId req := t]> (tasks db)))
            end
      end.
Proof.
  run_handler. unfold requiredPresent.
  destruct (Js.truthy (Req.title _)); [|done].
  destruct (Js.truthy (Req.description _)); [|done].
  destruct (Js.truthy (Req.dueDate _)); [|done].
  destruct (Js.truthy (Req.priority _)); [|done].
  destruct (Js.truthy (Req.assignedTo _)); [|done].
  cbn. destruct (dueDateInPast _ _); [done|].
  destruct (castObjectId _) as [a|]; [|done].
  destruct (validates _); [|done]. cbn.
  by destruct (tasks db !! newObjectId req).
Qed.


End DueDate.

(** *** Creation and the two updates *)

Section Mutations.

Context `{TaskSchema}.

(** C9.  A creation request that carries the five required fields, with a
    due date that is not in the past, creates a task as soon as the schema
    accepts it (the assignee casts to an ObjectId, the validators pass)
    and the new [_id] is free: the answer is 201 with the task, the task
    is stored under the new [_id], its [createdBy] is the requester and
    its [status] is pending. *)
Theorem createTask_creator_and_status req db a :
  requiredPresent (body req) = true ->
  dueDateInPast (runtime req) (Req.dueDate (body req)) = false ->
  castObjectId (Req.assignedTo (body req)) = Some a ->
  validates (TaskModel.newDocument (runtime req) (newObjectId req)
               (Req.title (body req)) (Req.description (body req))
               (Req.dueDate (body req)) (Req.priority (body req))
               a (user req)) = true ->
  tasks db !! newObjectId req = None ->
  exists t,
    fst (createTask req db) =
      {| statusCode := 201;
         json := TaskBody (Some "Task created successfully") (Some (populated db t)) |}
    /\ tasks (snd (createTask req db)) !! newObjectId req = Some t
    /\ createdBy t = user req
    /\ status t = Js.JStr "pending"
    /\ assignedTo t = a
    /\ (forall j, j <> newObjectId req ->
          tasks (snd (createTask req db)) !! j = tasks db !! j).
Proof.
  intros Hp Hd Ha Hv Hfresh. rewrite createTask_outcome, Hp, Hd, Ha. cbn zeta.
  rewrite Hv, Hfresh. cbn. eexists. split; [reflexivity|].
  split; [apply lookup_insert_eq|]. repeat split.
  intros j Hj. by apply lookup_insert_ne.
Qed.

(** C7.  An authorized [updateTask] that succeeds stores the payload's
    [title], [description], [dueDate], [priority] and [status] in place of
    the task's, each as the payload has it, so [undefined] for a field that
    was not sent; it succeeds for a participant as soon as no due date in
    the past is sent and the update validators pass.  Whatever the request
    and its outcome, no task's [createdBy] or [assignedTo] changes, and no
    other task changes at all. *)
Theorem updateTask_replaces_wholesale req db :
  (forall j t1,
      tasks (snd (updateTask req db)) !! j = Some t1 ->
      exists t0, tasks db !! j = Some t0
                 /\ createdBy t1 = createdBy t0 /\ assignedTo t1 = assignedTo t0
                 /\ (j <> params_id req -> t1 = t0))
  /\ (forall t,
        tasks db !! params_id req = Some t ->
        succeeded (fst (updateTask req db)) = true ->
        exists t',
          tasks (snd (updateTask req db)) !! params_id req = Some t'
          /\ json (fst (updateTask req db)) =
               TaskBody (Some "Task updated successfully") (Some (populated db t'))
          /\ title t' = Req.title (body req)
          /\ description t' = Req.description (body req)
          /\ dueDate t' = Req.dueDate (body req)
          /\ priority t' = Req.priority (body req)
          /\ status t' = Req.status (body req)
          /\ createdBy t' = createdBy t /\ assignedTo t' = assignedTo t
          /\ _id t' = _id t /\ createdAt t' = createdAt t)
  /\ (forall t,
        tasks db !! params_id req = Some t ->
        participant t (user req) = true ->
        accepted OpUpdate req t = true ->
        succeeded (fst (updateTask req db)) = true).
Proof.
  pose proof (updateTask_outcome req db) as Ho.
  assert (Hfail : forall r,
    updateTask req db = (r, db) -> succeeded r = false ->
    (forall j t1,
        tasks (snd (updateTask req db)) !! j = Some t1 ->
        exists t0, tasks db !! j = Some t0
                   /\ createdBy t1 = createdBy t0 /\ assignedTo t1 = assignedTo t0
                   /\ (j <> params_id req -> t1 = t0))
    /\ (forall t, tasks db !! params_id req = Some t ->
          succeeded (fst (updateTask req db)) = true ->
          exists t',
            tasks (snd (updateTask req db)) !! params_id req = Some t'
            /\ json (fst (updateTask req db)) =
                 TaskBody (Some "Task updated successfully") (Some (populated db t'))
            /\ title t' = Req.title (body req)
            /\ description t' = Req.description (body req)
            /\ dueDate t' = Req.dueDate (body req)
            /\ priority t' = Req.priority (body req)
            /\ status t' = Req.status (body req)
            /\ createdBy t' = createdBy t /\ assignedTo t' = assignedTo t
            /\ _id t' = _id t /\ createdAt t' = createdAt t)).
  { intros r -> Hr. cbn [fst snd]. split; [by eauto 10|].
    intros t _ Hs. congruence. }
  destruct (tasks db !! params_id req) as [t|] eqn:Ht.
  2:{ destruct (Hfail _ Ho eq_refl) as [H1 H2].
      split; [exact H1|]. split; [exact H2|].
      intros ? Hl Hp Hacc; cbn in Hacc; congruence. }
  destruct (participant t (user req)) eqn:Hpart; cbn [negb] in Ho.
  2:{ destruct (Hfail _ Ho eq_refl) as [H1 H2].
      split; [exact H1|]. split; [exact H2|].
      intros ? Hl Hp Hacc; cbn in Hacc; congruence. }
  cbn [accepted].
  destruct (Js.truthy _ && dueDateInPast _ _).
  { destruct (Hfail _ Ho eq_refl) as [H1 H2].
      split; [exact H1|]. split; [exact H2|].
      intros ? Hl Hp Hacc; cbn in Hacc; congruence. }
  destruct (validatesUpdate _ _ _ _ _); cbn [negb andb] in Ho |- *.
  2:{ destruct (Hfail _ Ho eq_refl) as [H1 H2].
      split; [exact H1|]. split; [exact H2|].
      intros ? Hl Hp Hacc; cbn in Hacc; congruence. }
  clear Hfail.
  cbn zeta in Ho. destruct Ho as (Hc & (p & Hj & Hp) & Hdb).
  assert (Hpop : p = populated db (doc p)).
  { revert Hj. run_handler. rewrite Ht. cbn.
    unfold participant in *.
    destruct (negb _ && negb _); [done|].
    destruct (Js.truthy _ && dueDateInPast _ _); [done|].
    destruct (validatesUpdate _ _ _ _ _); [|done]. cbn. rewrite Ht. cbn.
    by intros [= <-]. }
  rewrite Hdb. cbn [tasks withTasks]. split; [|split].
  - intros j t1. destruct (decide (j = params_id req)) as [->|Hne].
    + rewrite lookup_insert_eq. intros [= <-]. exists t. by cbn.
    + rewrite lookup_insert_ne by done. intros Hj1. exists t1. by eauto.
  - intros t0 [= <-] _. eexists. split; [apply lookup_insert_eq|].
    rewrite Hj, Hpop, Hp. by cbn.
  - intros _ _ _ _. unfold succeeded. by rewrite Hc.
Qed.

(** C8.  An [updateTaskStatus] that succeeds changes, in the task it
    names, the [status] to the status of the request, and nothing else:
    [title], [description], [dueDate], [priority], [assignedTo],
    [createdBy], [createdAt] and [_id] are what they were; every other
    task, and the users, are untouched. *)
Theorem updateTaskStatus_changes_status_only req db :
  wfDB db ->
  succeeded (fst (updateTaskStatus req db)) = true ->
  exists t t',
    tasks db !! params_id req = Some t
    /\ tasks (snd (updateTaskStatus req db)) !! params_id req = Some t'
    /\ status t' = Req.status (body req)
    /\ title t' = title t /\ description t' = description t
    /\ dueDate t' = dueDate t /\ priority t' = priority t
    /\ assignedTo t' = assignedTo t /\ createdBy t' = createdBy t
    /\ createdAt t' = createdAt t /\ _id t' = _id t
    /\ (forall j, j <> params_id req ->
          tasks (snd (updateTaskStatus req db)) !! j = tasks db !! j)
    /\ users (snd (updateTaskStatus req db)) = users db.
Proof.
  intros Hwf Hs.
  destruct (validStatus req) eqn:Hv.
  2:{ by rewrite updateTaskStatus_invalid in Hs. }
  pose proof (updateTaskStatus_outcome req db Hv) as Ho.
  destruct (tasks db !! params_id req) as [t|] eqn:Ht.
  2:{ by rewrite Ho in Hs. }
  destruct (participant t (user req)); cbn [negb] in Ho.
  2:{ by rewrite Ho in Hs. }
  destruct (validates _); cbn [negb] in Ho.
  2:{ by rewrite Ho in Hs. }
  cbn zeta in Ho. destruct Ho as (_ & _ & Hdb).
  rewrite (Hwf _ _ Ht) in Hdb. rewrite Hdb. cbn [tasks users withTasks].
  exists t, (setStatus t (Req.status (body req))).
  rewrite lookup_insert_eq. repeat split.
  intros j Hj. by apply lookup_insert_ne.
Qed.

(** The condition under which [updateTaskStatus] succeeds. *)
Lemma updateTaskStatus_succeeds req db t :
  validStatus req = true ->
  tasks db !! params_id req = Some t ->
  participant t (user req) = true ->
  validates (setStatus t (Req.status (body req))) = true ->
  succeeded (fst (updateTaskStatus req db)) = true.
Proof.
  intros Hv Ht Hp Hval. pose proof (updateTaskStatus_outcome req db Hv) as Ho.
  rewrite Ht, Hp, Hval in Ho. cbn in Ho. destruct Ho as (Hc & _).
  unfold succeeded. by rewrite Hc.
Qed.

(** Every handler keeps each document under its own [_id]. *)
Lemma handlers_keep_wfDB req db :
  wfDB db ->
  wfDB (snd (createTask req db))
  /\ (forall k, wfDB (snd (listingHandler k req db)))
  /\ wfDB (snd (getTaskById req db))
  /\ wfDB (snd (updateTask req db))
  /\ wfDB (snd (deleteTask req db))
  /\ wfDB (snd (updateTaskStatus req db)).
Proof.
  intros Hwf. unfold wfDB in *. repeat split.
  - rewrite createTask_outcome.
    destruct (negb (requiredPresent _)); [done|].
    destruct (dueDateInPast _ _); [done|].
    destruct (castObjectId _); [|done]. cbn zeta.
    destruct (negb (validates _)); [done|].
    destruct (tasks db !! newObjectId req); [done|].
    cbn. by apply map_Forall_insert_2.
  - intros k. by rewrite listingHandler_listTasks, listTasks_outcome.
  - by destruct (getTaskById_outcome req db) as [_ ->].
  - pose proof (updateTask_outcome req db) as Ho.
    destruct (tasks db !! params_id req) as [t|] eqn:Ht; [|by rewrite Ho].
    repeat (match type of Ho with (if ?b then _ else _) => destruct b end);
      try (by rewrite Ho).
    destruct Ho as (_ & _ & ->). cbn. apply map_Forall_insert_2; [|done].
    cbn. by apply (Hwf _ _ Ht).
  - rewrite deleteTask_outcome.
    destruct (tasks db !! params_id req) as [t|]; [|done].
    destruct (negb _); [done|]. cbn. by apply map_Forall_delete.
  - destruct (validStatus req) eqn:Hv; [|by rewrite updateTaskStatus_invalid].
    pose proof (updateTaskStatus_outcome req db Hv) as Ho.
    destruct (tasks db !! params_id req) as [t|] eqn:Ht; [|by rewrite Ho].
    repeat (match type of Ho with (if ?b then _ else _) => destruct b end);
      try (by rewrite Ho).
    destruct Ho as (_ & _ & ->). cbn. by apply map_Forall_insert_2.
Qed.

End Mutations.

(** ** The properties on the sample data *)

Lemma sampleDB_wf : wfDB sampleDB.
Proof.
  unfold wfDB, sampleDB. cbn [tasks].
  repeat (apply map_Forall_insert_2; [reflexivity|]). apply map_Forall_empty.
Qed.



(** C2 on the sample data: U2, the assignee of task 10, may not delete it;
    U1, its creator, deletes it, and it is not found afterwards. *)
Lemma deleteTask_creator_only_witness :
  tasks sampleDB !! 10%N = Some (sampleTask 10%N U1 U2 100)
  /\ errorKind (fst (deleteTask (sampleRequest U2 10%N emptyBody None None) sampleDB))
     = Some Forbidden
  /\ succeeded (fst (deleteTask (sampleRequest U1 10%N emptyBody None None) sampleDB)) = true
  /\ errorKind (fst (getTaskById (sampleRequest U2 10%N emptyBody None None)
                       (snd (deleteTask (sampleRequest U1 10%N emptyBody None None) sampleDB))))
     = Some NotFound.
Proof.
  assert (Ht : tasks sampleDB !! 10%N = Some (sampleTask 10%N U1 U2 100))
    by (vm_compute; reflexivity).
  split; [exact Ht|]. split; [|split].
  - destruct (deleteTask_creator_only
                (sampleRequest U2 10%N emptyBody None None) sampleDB _ Ht)
      as (Hassignee & _ & _).
    apply Hassignee; [reflexivity | discriminate].
  - destruct (deleteTask_creator_only
                (sampleRequest U1 10%N emptyBody None None) sampleDB _ Ht)
      as (_ & _ & Hcreator).
    by destruct (Hcreator eq_refl) as (Hs & _).
  - destruct (deleteTask_creator_only
                (sampleRequest U1 10%N emptyBody None None) sampleDB _ Ht)
      as (_ & _ & Hcreator).
    destruct (Hcreator eq_refl) as (_ & _ & Hgone). by apply Hgone.
Defined.





(** C7 on the sample data: U2, the assignee of task 10, sends a title and
    a due date; the description, the priority and the status of the task
    become [undefined], and U1 is still its creator. *)
Lemma updateTask_replaces_wholesale_witness :
  succeeded (fst (updateTask (sampleRequest U2 10%N (updateBody tomorrow) None None) sampleDB))
  = true
  /\ exists t',
       tasks (snd (updateTask (sampleRequest U2 10%N (updateBody tomorrow) None None) sampleDB))
         !! 10%N = Some t'
       /\ title t' = Js.JStr "Fix the bug"
       /\ description t' = Js.JUndefined
       /\ priority t' = Js.JUndefined
       /\ status t' = Js.JUndefined
       /\ createdBy t' = U1 /\ assignedTo t' = U2.
Proof.
  destruct (updateTask_replaces_wholesale
              (sampleRequest U2 10%N (updateBody tomorrow) None None) sampleDB)
    as (_ & Hreplaced & Hsucceeds).
  assert (Ht : tasks sampleDB !! 10%N = Some (sampleTask 10%N U1 U2 100))
    by (vm_compute; reflexivity).
  assert (Hs : succeeded (fst (updateTask (sampleRequest U2 10%N (updateBody tomorrow) None None)
                                 sampleDB)) = true).
  { apply (Hsucceeds _ Ht); vm_compute; reflexivity. }
  split; [exact Hs|].
  destruct (Hreplaced _ Ht Hs)
    as (t' & Hl & _ & Htitle & Hdesc & _ & Hprio & Hstatus & Hby & Hto & _).
  exists t'. by repeat (split; [done|]).
Defined.

(** C8 on the sample data: U2 marks task 10 completed; its title is what
    it was. *)
Lemma updateTaskStatus_changes_status_only_witness :
  wfDB sampleDB
  /\ succeeded (fst (updateTaskStatus
                       (sampleRequest U2 10%N (statusBody (Js.JStr "completed")) None None)
                       sampleDB)) = true
  /\ exists t t',
       tasks sampleDB !! 10%N = Some t
       /\ tasks (snd (updateTaskStatus
                        (sampleRequest U2 10%N (statusBody (Js.JStr "completed")) None None)
                        sampleDB)) !! 10%N = Some t'
       /\ status t' = Js.JStr "completed"
       /\ title t' = title t.
Proof.
  assert (Hs : succeeded (fst (updateTaskStatus
                       (sampleRequest U2 10%N (statusBody (Js.JStr "completed")) None None)
                       sampleDB)) = true) by (vm_compute; reflexivity).
  split; [exact sampleDB_wf|]. split; [exact Hs|].
  destruct (updateTaskStatus_changes_status_only _ _ sampleDB_wf Hs)
    as (t & t' & Ht & Ht' & Hstatus & Htitle & _).
  exists t, t'. by repeat (split; [done|]).
Defined.

(** C9 on the sample data: U1 creates a task due today for U2. *)
Lemma createTask_creator_and_status_witness :
  requiredPresent (createBody today) = true
  /\ dueDateInPast sampleRuntime (Js.JStr today) = false
  /\ castObjectId (Js.JStr "000000000000000000000002") = Some U2
  /\ tasks sampleDB !! 99%N = None
  /\ exists t,
       tasks (snd (createTask (sampleRequest U1 0%N (createBody today) None None) sampleDB))
         !! 99%N = Some t
       /\ createdBy t = U1 /\ status t = Js.JStr "pending" /\ assignedTo t = U2.
Proof.
  assert (Hp : requiredPresent (createBody today) = true) by reflexivity.
  assert (Hd : dueDateInPast sampleRuntime (Js.JStr today) = false)
    by (vm_compute; reflexivity).
  assert (Ha : castObjectId (Js.JStr "000000000000000000000002") = Some U2)
    by (vm_compute; reflexivity).
  assert (Hf : tasks sampleDB !! 99%N = None) by (vm_compute; reflexivity).
  split; [exact Hp|]. split; [exact Hd|]. split; [exact Ha|]. split; [exact Hf|].
  destruct (createTask_creator_and_status
              (sampleRequest U1 0%N (createBody today) None None) sampleDB U2
              Hp Hd Ha ltac:(vm_compute; reflexivity) Hf)
    as (t & _ & Hstored & Hby & Hstatus & Hto & _).
  exists t. by repeat (split; [done|]).
Defined.

(** C10 on the sample data: a request without a status for task 15, which
    does not exist, is answered InvalidInput. *)
Lemma updateTaskStatus_status_before_lookup_witness :
  tasks sampleDB !! 15%N = None
  /\ errorKind (fst (updateTaskStatus (sampleRequest U1 15%N emptyBody None None) sampleDB))
     = Some InvalidInput.
Proof.
  split; [vm_compute; reflexivity|].
  by destruct (updateTaskStatus_status_before_lookup
                 (sampleRequest U1 15%N emptyBody None None) sampleDB
                 ltac:(discriminate) ltac:(discriminate)) as (He & _).
Defined.

(** C3 on the sample data: task 12, which U1 created for themself, is in
    the created-by-me listing of U1 and not in the assigned-to-me one; task
    13, which U2 assigned to U1, is. *)
Lemma listings_show_their_tasks_witness :
  listedBy CreatedByMe U1 sampleDB (sampleTask 12%N U1 U1 200)
  /\ (listedBy AssignedToMe U1 sampleDB (sampleTask 12%N U1 U1 200) -> False)
  /\ listedBy AssignedToMe U1 sampleDB (sampleTask 13%N U2 U1 500).
Proof.
  assert (H12 : sampleTask 12%N U1 U1 200 ∈ stored sampleDB).
  { apply elem_of_stored. exists 12%N. vm_compute; reflexivity. }
  assert (H13 : sampleTask 13%N U2 U1 500 ∈ stored sampleDB).
  { apply elem_of_stored. exists 13%N. vm_compute; reflexivity. }
  split; [|split].
  - destruct (listings_show_their_tasks U1 sampleDB (sampleTask 12%N U1 U1 200))
      as (_ & _ & _ & Hself).
    destruct (Hself (conj eq_refl eq_refl)) as [_ Hin]. by apply Hin.
  - destruct (listings_show_their_tasks U1 sampleDB (sampleTask 12%N U1 U1 200))
      as (_ & _ & _ & Hself).
    by destruct (Hself (conj eq_refl eq_refl)) as [Hout _].
  - destruct (listings_show_their_tasks U1 sampleDB (sampleTask 13%N U2 U1 500))
      as (Hassigned & _).
    apply Hassigned. split; [done|]. split; [reflexivity|discriminate].
Defined.

(** ** The handlers on small inputs *)

Example parseInt_examples :
  Js.parseInt "12" = Some 12 /\ Js.parseInt "  -7px" = Some (-7)
  /\ Js.parseInt "0x1F" = Some 31 /\ Js.parseInt "abc" = None
  /\ Js.parseInt "" = None /\ Js.parseInt "undefined" = None
  /\ Js.parseInt "-0" = Some 0 /\ Js.numberToString (-40) = "-40".
Proof. repeat (split; [vm_compute; reflexivity|]). vm_compute; reflexivity. Qed.

(** The example of the design: U1 creates a task for U2, due today; U2
    marks it completed; U2 may not delete it; U1 deletes it. *)
Example create_complete_delete :
  let create := sampleRequest U1 0%N (createBody today) None None in
  let complete := sampleRequest U2 99%N (statusBody (Js.JStr "completed")) None None in
  let db1 := snd (createTask create sampleDB) in
  let db2 := snd (updateTaskStatus complete db1) in
  statusCode (fst (createTask create sampleDB)) = 201
  /\ (createdBy <$> tasks db1 !! 99%N) = Some U1
  /\ (assignedTo <$> tasks db1 !! 99%N) = Some U2
  /\ (status <$> tasks db1 !! 99%N) = Some (Js.JStr "pending")
  /\ statusCode (fst (updateTaskStatus complete db1)) = 200
  /\ (status <$> tasks db2 !! 99%N) = Some (Js.JStr "completed")
  /\ statusCode (fst (deleteTask (sampleRequest U2 99%N emptyBody None None) db2)) = 403
  /\ statusCode (fst (deleteTask (sampleRequest U1 99%N emptyBody None None) db2)) = 200
  /\ tasks (snd (deleteTask (sampleRequest U1 99%N emptyBody None None) db2)) !! 99%N = None.
Proof.
  cbv zeta. repeat (split; [vm_compute; reflexivity|]). vm_compute; reflexivity.
Qed.

(** The pages of the all-tasks listing of U1, three to a page: tasks 13,
    11 and 12, then task 10; a page of -2 makes the skip negative, which
    the store refuses. *)
Example getTasks_pages :
  (_id <$> pageDocs (fst (getTasks (sampleRequest U1 0%N emptyBody None None) sampleDB)))
  = [13%N; 11%N; 12%N]
  /\ (_id <$> pageDocs (fst (getTasks (sampleRequest U1 0%N emptyBody (Some "2") None) sampleDB)))
     = [10%N]
  /\ (_id <$> pageDocs (fst (getAssignedTasks (sampleRequest U1 0%N emptyBody None None) sampleDB)))
     = [13%N]
  /\ (_id <$> pageDocs (fst (getCreatedTasks (sampleRequest U1 0%N emptyBody None None) sampleDB)))
     = [11%N; 12%N; 10%N]
  /\ statusCode (fst (getTasks (sampleRequest U1 0%N emptyBody (Some "-2") None) sampleDB)) = 500.
Proof. repeat (split; [vm_compute; reflexivity|]). vm_compute; reflexivity. Qed.

(** ** More of the controller: what a call changes *)

Section Calls.

Context `{TaskSchema}.

Lemma listedBy_iff k u db t :
  listedBy k u db t <-> t ∈ stored db /\ inListing k u t.
Proof.
  rewrite <- matches_queryOf, <- elem_of_matching. split.
  - intros (req & <- & Hin). rewrite listingHandler_listTasks in Hin.
    by apply pageDocs_listTasks in Hin.
  - apply listedBy_whole.
Qed.

(** What a call does to the collection: nothing, or, when it succeeds, one
    insertion of a new document under a free [_id], one replacement of a
    document by one with the same identity, or one deletion by the
    creator. *)
Lemma call_step c db :
  snd (call c db) = db
  \/ (succeeded (fst (call c db)) = true
      /\ readOnly c = false
      /\ ((exists req t,
              c = CallCreate req /\ tasks db !! newObjectId req = None
              /\ _id t = newObjectId req
              /\ snd (call c db) = withTasks db (<[newObjectId req := t]> (tasks db)))
          \/ (exists req t t',
                 (c = CallUpdate req \/ c = CallStatus req)
                 /\ tasks db !! params_id req = Some t
                 /\ participant t (user req) = true
                 /\ _id t' = _id t /\ createdBy t' = createdBy t
                 /\ assignedTo t' = assignedTo t /\ createdAt t' = createdAt t
                 /\ (snd (call c db) = withTasks db (<[params_id req := t']> (tasks db))
                     \/ snd (call c db) = withTasks db (<[_id t := t']> (tasks db))))
          \/ (exists req t,
                 c = CallDelete req /\ tasks db !! params_id req = Some t
                 /\ user req = createdBy t
                 /\ snd (call c db) = withTasks db (delete (params_id req) (tasks db))))).
Proof.
  destruct c as [req|k req|req|req|req|req]; cbn [call readOnly].
  - rewrite createTask_outcome.
    destruct (negb (requiredPresent _)); [by left|].
    destruct (dueDateInPast _ _); [by left|].
    destruct (castObjectId _) as [a|]; [|by left]. cbn zeta.
    destruct (negb (validates _)); [by left|].
    destruct (tasks db !! newObjectId req) eqn:Hf; [by left|].
    right. split; [done|]. split; [done|]. left.
    eexists req, _. split; [done|]. split; [done|]. split; [|done]. done.
  - left. by rewrite listingHandler_listTasks, listTasks_outcome.
  - left. by destruct (getTaskById_outcome req db) as [_ ->].
  - pose proof (updateTask_outcome req db) as Ho.
    destruct (tasks db !! params_id req) as [t|] eqn:Ht; [|left; by rewrite Ho].
    destruct (participant t (user req)) eqn:Hp; cbn [negb] in Ho;
      [|left; by rewrite Ho].
    destruct (Js.truthy _ && dueDateInPast _ _); [left; by rewrite Ho|].
    destruct (negb (validatesUpdate _ _ _ _ _)); [left; by rewrite Ho|].
    cbn zeta in Ho. destruct Ho as (Hc & _ & Hdb).
    right. split; [unfold succeeded; by rewrite Hc|]. split; [done|].
    right. left.
    match type of Hdb with _ = withTasks _ (<[_ := ?x]> _) => exists req, t, x end.
    split; [by left|]. split; [done|]. split; [done|]. rewrite Hdb.
    repeat (split; [reflexivity|]). by left.
  - rewrite deleteTask_outcome.
    destruct (tasks db !! params_id req) as [t|] eqn:Ht; [|by left].
    destruct (N.eqb (createdBy t) (user req)) eqn:Hc; cbn [negb]; [|by left].
    apply N.eqb_eq in Hc. right. split; [done|]. split; [done|].
    right. right. by eauto 10.
  - destruct (validStatus req) eqn:Hv; [|left; by rewrite updateTaskStatus_invalid].
    pose proof (updateTaskStatus_outcome req db Hv) as Ho.
    destruct (tasks db !! params_id req) as [t|] eqn:Ht; [|left; by rewrite Ho].
    destruct (participant t (user req)) eqn:Hp; cbn [negb] in Ho;
      [|left; by rewrite Ho].
    destruct (negb (validates _)); [left; by rewrite Ho|].
    cbn zeta in Ho. destruct Ho as (Hc & _ & Hdb).
    right. split; [unfold succeeded; by rewrite Hc|]. split; [done|].
    right. left.
    match type of Hdb with _ = withTasks _ (<[_ := ?x]> _) => exists req, t, x end.
    split; [by right|]. split; [done|]. split; [done|]. rewrite Hdb.
    repeat (split; [reflexivity|]). by right.
Qed.

Lemma call_keeps_users c db : users (snd (call c db)) = users db.
Proof.
  destruct (call_step c db) as [-> | (_ & _ & Hstep)]; [done|].
  destruct Hstep as [(? & ? & _ & _ & _ & ->)
                    |[(? & ? & ? & _ & _ & _ & _ & _ & _ & _ & [-> | ->])
                     |(? & ? & _ & _ & _ & ->)]]; done.
Qed.


Lemma call_keeps_wfDB c db : wfDB db -> wfDB (snd (call c db)).
Proof.
  intros Hwf. destruct (handlers_keep_wfDB
    match c with
    | CallCreate req | CallList _ req | CallGet req | CallUpdate req
    | CallDelete req | CallStatus req => req
    end db Hwf) as (H1 & H2 & H3 & H4 & H5 & H6).
  destruct c; cbn [call]; auto.
Qed.

Lemma call_keeps_identity c db i t :
  wfDB db ->
  tasks db !! i = Some t ->
  ~ deletesFor i (createdBy t) c ->
  exists t',
    tasks (snd (call c db)) !! i = Some t'
    /\ _id t' = _id t /\ createdBy t' = createdBy t
    /\ assignedTo t' = assignedTo t /\ createdAt t' = createdAt t.
Proof.
  intros Hwf Ht Hnd.
  destruct (call_step c db) as [-> | (_ & _ & Hstep)]; [by eauto 10|].
  destruct Hstep as [(req & t0 & -> & Hfree & _ & ->)
                    |[(req & t0 & t' & Hc & Ht0 & _ & Hi & Hb & Ha & Hat & Hdb)
                     |(req & t0 & -> & Ht0 & Hu & ->)]]; cbn [tasks withTasks].
  - exists t. rewrite lookup_insert_ne; [done|]. intros <-. congruence.
  - assert (Hkey : _id t0 = params_id req) by apply (Hwf _ _ Ht0).
    assert (Hdb' : snd (call c db) = withTasks db (<[params_id req := t']> (tasks db))).
    { destruct Hdb as [-> | ->]; [done|]. by rewrite Hkey. }
    rewrite Hdb'. cbn [tasks withTasks].
    destruct (decide (params_id req = i)) as [<-|Hne].
    + rewrite lookup_insert_eq. exists t'. rewrite Ht0 in Ht. injection Ht as <-.
      by eauto.
    + rewrite lookup_insert_ne by done. by eauto 10.
  - destruct (decide (params_id req = i)) as [<-|Hne].
    + exfalso. apply Hnd. cbn. rewrite Ht0 in Ht. injection Ht as <-. done.
    + rewrite lookup_delete_ne by done. by eauto 10.
Qed.

(** X2.  Over any sequence of calls on a collection that keeps each
    document under its own [_id], a task stays stored, with the [_id],
    [createdBy], [assignedTo] and [createdAt] it had, unless one of the
    calls is a [deleteTask] of this task by its creator: no call reassigns
    a task or gives it another creator, and only its creator's delete
    removes it.  The users are never changed. *)
Theorem identity_kept_by_calls cs db i t :
  wfDB db ->
  tasks db !! i = Some t ->
  Forall (fun c => ~ deletesFor i (createdBy t) c) cs ->
  (exists t',
      tasks (exec cs db) !! i = Some t'
      /\ _id t' = _id t /\ createdBy t' = createdBy t
      /\ assignedTo t' = assignedTo t /\ createdAt t' = createdAt t)
  /\ users (exec cs db) = users db
  /\ wfDB (exec cs db).
Proof.
  revert db t. induction cs as [|c cs IH]; intros db t Hwf Ht Hnd.
  - cbn. by eauto 10.
  - apply Forall_cons in Hnd as [Hc Hcs]. cbn [exec].
    destruct (call_keeps_identity c db i t Hwf Ht Hc)
      as (t1 & Ht1 & Hi & Hb & Ha & Hat).
    destruct (IH (snd (call c db)) t1 (call_keeps_wfDB c db Hwf) Ht1)
      as ((t' & Ht' & Hi' & Hb' & Ha' & Hat') & Hu & Hwf').
    { by rewrite Hb. }
    split; [|split; [|done]].
    + exists t'. split; [done|]. by rewrite Hi', Hb', Ha', Hat'.
    + by rewrite Hu, call_keeps_users.
Qed.

End Calls.

(** ** More of the controller: creation *)

Section MoreCreation.

Context `{TaskSchema}.

Lemma truthy_false v : Js.truthy v = false <-> falsy v.
Proof.
  unfold falsy. destruct v as [| |b|n|s|s]; cbn.
  - by intuition.
  - by intuition.
  - destruct b; by intuition.
  - rewrite negb_false_iff, Z.eqb_eq. split; [intros ->; by intuition|].
    intros [?|[?|[?|[[= ->]|?]]]]; done.
  - rewrite negb_false_iff, String.eqb_eq. split; [intros ->; by intuition|].
    intros [?|[?|[?|[?|[= ->]]]]]; done.
  - by intuition.
Qed.

(** X3.  [createTask] refuses a payload in which one of [title],
    [description], [dueDate], [priority] and [assignedTo] is missing,
    [null], [false], [0] or the empty string: it answers 400 "Please
    provide all required fields" and changes nothing, and it does so before
    it looks at the due date. *)
Theorem createTask_requires_fields req db :
  (requiredPresent (body req) = false <->
   falsy (Req.title (body req)) \/ falsy (Req.description (body req))
   \/ falsy (Req.dueDate (body req)) \/ falsy (Req.priority (body req))
   \/ falsy (Req.assignedTo (body req)))
  /\ (requiredPresent (body req) = false <->
      createTask req db =
        ({| statusCode := 400;
            json := Message false "Please provide all required fields" |}, db)).
Proof.
  split.
  - unfold requiredPresent. rewrite !andb_false_iff, !truthy_false. tauto.
  - rewrite createTask_outcome.
    destruct (requiredPresent (body req)); cbn [negb]; [|done].
    split; [done|]. intros Hc. exfalso. revert Hc.
    destruct (dueDateInPast _ _); [done|].
    destruct (castObjectId _) as [a|]; [|done]. cbn zeta.
    destruct (negb (validates _)); [done|].
    by destruct (tasks db !! newObjectId req).
Qed.

(** X4.  [createTask] never reads the [status] of the payload: the same
    request with any other status gets the same answer and leaves the same
    database.  The task it creates carries the [title], [description],
    [dueDate] and [priority] of the payload as they were sent, the assignee
    the payload's [assignedTo] casts to, and the driver's new [_id]. *)
Theorem createTask_stores_payload req db s :
  createTask (withStatus req s) db = createTask req db
  /\ (statusCode (fst (createTask req db)) = 201 ->
      exists t,
        tasks (snd (createTask req db)) !! newObjectId req = Some t
        /\ json (fst (createTask req db)) =
             TaskBody (Some "Task created successfully") (Some (populated db t))
        /\ title t = Req.title (body req)
        /\ description t = Req.description (body req)
        /\ dueDate t = Req.dueDate (body req)
        /\ priority t = Req.priority (body req)
        /\ castObjectId (Req.assignedTo (body req)) = Some (assignedTo t)
        /\ _id t = newObjectId req
        /\ tasks db !! newObjectId req = None).
Proof.
  split; [by rewrite !createTask_outcome|].
  rewrite createTask_outcome.
  destruct (negb (requiredPresent _)); [done|].
  destruct (dueDateInPast _ _); [done|].
  destruct (castObjectId _) as [a|]; [|done]. cbn zeta.
  destruct (negb (validates _)); [done|].
  destruct (tasks db !! newObjectId req) eqn:Hf; [done|].
  intros _. cbn. eexists. split; [apply lookup_insert_eq|]. done.
Qed.

End MoreCreation.

(** ** More of the controller: listings *)

Lemma concat_pages {A} (l : list A) (L k : nat) :
  concat ((fun i : nat => take L (drop (i * L) l)) <$> seq 0 k) = take (k * L) l.
Proof.
  induction k as [|k IH]; [done|].
  rewrite seq_S, fmap_app, concat_app, IH. cbn [fmap list_fmap concat Nat.add].
  rewrite app_nil_r, take_take_drop. f_equal. lia.
Qed.

Lemma length_filter_or {A} (P Q : A -> bool) (l : list A) :
  (forall x, P x = true -> Q x = true -> False) ->
  length (filter (fun x => P x || Q x = true) l)
  = (length (filter (fun x => P x = true) l)
     + length (filter (fun x => Q x = true) l))%nat.
Proof.
  intros Hdis. induction l as [|x l IH]; [done|].
  rewrite !filter_cons.
  specialize (Hdis x).
  destruct (P x) eqn:HP, (Q x) eqn:HQ; cbn [orb];
    repeat case_decide; try done; cbn [length]; lia.
Qed.

Section MoreListing.

Context `{TaskSchema}.

Lemma pageDocs_withPage q req db (i : nat) :
  1 <= limitOf req ->
  pageDocs (fst (listTasks q (withPage req (Z.of_nat i + 1)) db))
  = take (Z.to_nat (limitOf req))
      (drop (i * Z.to_nat (limitOf req)) (matching q db)).
Proof.
  intros Hl.
  assert (Hp : pageOf (withPage req (Z.of_nat i + 1)) = Z.of_nat i + 1).
  { unfold pageOf. cbn. apply parseIntOr_numberToString. lia. }
  assert (Hlim : limitOf (withPage req (Z.of_nat i + 1)) = limitOf req) by done.
  assert (Hs : skipOf (withPage req (Z.of_nat i + 1)) = Z.of_nat i * limitOf req).
  { unfold skipOf. rewrite Hp, Hlim. f_equal. lia. }
  rewrite listTasks_page by (rewrite ?Hs, ?Hlim; nia).
  cbn [pageDocs json]. rewrite Hs, Hlim.
  rewrite <- list_fmap_compose, list_fmap_id.
  by rewrite Z2Nat.inj_mul, Nat2Z.id by lia.
Qed.

(** X5.  For a page size of at least 1, the pages 1 to [pages] of a
    listing, one after the other, are the documents the listing matches,
    newest first: every matching document is on exactly one page, in
    order. *)
Theorem pages_cover_the_listing k req db :
  1 <= limitOf req ->
  let all := matching (queryOf k (user req)) db in
  let pages := - ((- Z.of_nat (length all)) / limitOf req) in
  concat ((fun p => pageDocs (fst (listingHandler k (withPage req p) db)))
            <$> seqZ 1 pages) = all.
Proof.
  intros Hl all pages.
  destruct (ceil_bounds (Z.of_nat (length all)) (limitOf req)) as [Hpages Hceil];
    [lia|done|]. fold pages in Hpages, Hceil.
  unfold seqZ. rewrite <- list_fmap_compose.
  rewrite (list_fmap_ext _
             (fun i : nat => take (Z.to_nat (limitOf req))
                               (drop (i * Z.to_nat (limitOf req)) all))).
  - rewrite concat_pages. apply take_ge. apply Nat2Z.inj_le.
    rewrite Nat2Z.inj_mul, !Z2Nat.id by lia. unfold all in *. lia.
  - intros _ i _. cbn. rewrite listingHandler_listTasks.
    change (user (withPage req (Z.of_nat i + 1))) with (user req).
    by rewrite pageDocs_withPage.
Qed.

(** X6.  For a page and a page size of at least 1, a listing answers 200
    with [count] the smaller of [limit] and what is left of [total] after
    the skip, and 0 when nothing is left: a page after the last one is not
    an error but an empty page, which still reports [total]. *)
Theorem page_count_and_empty_pages k req db :
  1 <= pageOf req ->
  1 <= limitOf req ->
  let total := Z.of_nat (length (matching (queryOf k (user req)) db)) in
  let pages := - ((- total) / limitOf req) in
  statusCode (fst (listingHandler k req db)) = 200
  /\ pageTotal (fst (listingHandler k req db)) = total
  /\ pageCount (fst (listingHandler k req db))
     = Z.max 0 (Z.min (limitOf req) (total - skipOf req))
  /\ Z.of_nat (length (pageDocs (fst (listingHandler k req db))))
     = pageCount (fst (listingHandler k req db))
  /\ (pages < pageOf req -> pageDocs (fst (listingHandler k req db)) = []).
Proof.
  intros Hp Hl total pages.
  assert (Hs : 0 <= skipOf req) by (unfold skipOf; nia).
  rewrite listingHandler_listTasks, listTasks_page by done.
  cbn [statusCode pageTotal pageCount pageDocs json].
  rewrite <- list_fmap_compose, list_fmap_id.
  rewrite length_take, length_drop. fold total.
  split; [done|]. split; [done|]. split; [unfold total; lia|]. split; [done|].
  intros Hlast. apply nil_length_inv. rewrite length_take, length_drop.
  destruct (ceil_bounds total (limitOf req)) as [_ Hceil]; [lia|done|].
  fold pages in Hceil.
  assert (total <= skipOf req) by (unfold skipOf; nia).
  unfold total in *. lia.
Qed.

(** X7.  For one user, the all-tasks listing reports as [total] the sum of
    the totals of the created-by-me and the assigned-to-me listings: the
    two partition it. *)
Theorem totals_add_up ra rc rs db :
  user ra = user rc ->
  user rs = user rc ->
  succeeded (fst (getTasks ra db)) = true ->
  succeeded (fst (getCreatedTasks rc db)) = true ->
  succeeded (fst (getAssignedTasks rs db)) = true ->
  pageTotal (fst (getTasks ra db))
  = pageTotal (fst (getCreatedTasks rc db))
    + pageTotal (fst (getAssignedTasks rs db)).
Proof.
  intros Ha Hs.
  change getTasks with (listingHandler AllTasks).
  change getCreatedTasks with (listingHandler CreatedByMe).
  change getAssignedTasks with (listingHandler AssignedToMe).
  rewrite !listingHandler_listTasks, !listTasks_outcome. cbn [fst].
  rewrite Ha, Hs.
  destruct (window _ _ (matching (queryOf AllTasks _) db)); [|done].
  destruct (window _ _ (matching (queryOf CreatedByMe _) db)); [|done].
  destruct (window _ _ (matching (queryOf AssignedToMe _) db)); [|done].
  intros _ _ _. cbn [pageTotal json].
  rewrite !matching_Permutation. rewrite <- Nat2Z.inj_add. f_equal.
  set (P := fun t => N.eqb (createdBy t) (user rc)).
  set (Q := fun t => N.eqb (assignedTo t) (user rc) && negb (N.eqb (createdBy t) (user rc))).
  rewrite (list_filter_iff (fun t => matches (queryOf AllTasks (user rc)) t = true)
             (fun t => P t || Q t = true)).
  2:{ intros t. unfold P, Q. cbn.
      by destruct (N.eqb (createdBy t) (user rc)), (N.eqb (assignedTo t) (user rc)). }
  rewrite (list_filter_iff (fun t => matches (queryOf CreatedByMe (user rc)) t = true)
             (fun t => P t = true)) by done.
  rewrite (list_filter_iff (fun t => matches (queryOf AssignedToMe (user rc)) t = true)
             (fun t => Q t = true)) by done.
  apply length_filter_or. intros t Hc Hb. unfold P, Q in *.
  rewrite Hc in Hb. by rewrite andb_false_r in Hb.
Qed.

(** X8.  The listing and the single read agree on who may see a task:
    for a task whose user references resolve, [getTaskById] succeeds for a
    requester exactly when the task is in the requester's all-tasks
    listing. *)
Theorem list_and_detail_agree req db t :
  tasks db !! params_id req = Some t ->
  resolved OpGet db t = true ->
  (succeeded (fst (getTaskById req db)) = true
   <-> listedBy AllTasks (user req) db t).
Proof.
  intros Ht Hres. rewrite listedBy_iff. cbn [inListing].
  destruct (getTaskById_outcome req db) as [-> _]. rewrite Ht.
  cbn in Hres. apply andb_true_iff in Hres as [Hc Ha].
  apply bool_decide_eq_true in Hc as [[cn ce] ->].
  apply bool_decide_eq_true in Ha as [[an ae] ->].
  assert (Hst : t ∈ stored db) by (apply elem_of_stored; eauto).
  unfold participant.
  destruct (N.eqb_spec (createdBy t) (user req)),
           (N.eqb_spec (assignedTo t) (user req)); cbn; by intuition.
Qed.

End MoreListing.

(** ** More of the controller: how the operations compose *)

Section Composition.

Context `{TaskSchema}.

Lemma updateTask_ok req db t :
  tasks db !! params_id req = Some t ->
  participant t (user req) = true ->
  accepted OpUpdate req t = true ->
  updateTask req db =
    ({| statusCode := 200;
        json := TaskBody (Some "Task updated successfully")
                  (Some (populated db (updatedBy req t))) |},
     withTasks db (<[params_id req := updatedBy req t]> (tasks db))).
Proof.
  intros Ht Hp Hacc. cbn [accepted] in Hacc.
  apply andb_true_iff in Hacc as [Hdue Hval]. apply negb_true_iff in Hdue.
  run_handler. rewrite Ht. cbn. unfold participant in Hp.
  destruct (N.eqb (createdBy t) (user req)), (N.eqb (assignedTo t) (user req));
    try done; cbn; rewrite Hdue, Hval; cbn; by rewrite Ht.
Qed.

Lemma updateTaskStatus_ok req db t :
  validStatus req = true ->
  tasks db !! params_id req = Some t ->
  participant t (user req) = true ->
  validates (setStatus t (Req.status (body req))) = true ->
  updateTaskStatus req db =
    ({| statusCode := 200;
        json := TaskBody (Some "Task status updated successfully")
                  (Some (populated db (setStatus t (Req.status (body req))))) |},
     withTasks db (<[_id t := setStatus t (Req.status (body req))]> (tasks db))).
Proof.
  unfold validStatus. intros Hv Ht Hp Hval.
  apply andb_true_iff in Hv as [Hv1 Hv2].
  run_handler. rewrite Hv1, Hv2. cbn. rewrite Ht. unfold participant in Hp.
  destruct (N.eqb (createdBy t) (user req)), (N.eqb (assignedTo t) (user req));
    try done; cbn; by rewrite Hval.
Qed.

Lemma updateTask_succeeded req db :
  succeeded (fst (updateTask req db)) = true ->
  exists t, tasks db !! params_id req = Some t
            /\ participant t (user req) = true
            /\ accepted OpUpdate req t = true.
Proof.
  intros Hs. pose proof (updateTask_outcome req db) as Ho.
  destruct (tasks db !! params_id req) as [t|]; [|by rewrite Ho in Hs].
  destruct (participant t (user req)) eqn:Hp; cbn [negb] in Ho;
    [|by rewrite Ho in Hs].
  exists t. cbn [accepted].
  destruct (Js.truthy _ && dueDateInPast _ _); [by rewrite Ho in Hs|].
  destruct (validatesUpdate _ _ _ _ _); [done|by rewrite Ho in Hs].
Qed.

Lemma updateTaskStatus_succeeded req db :
  succeeded (fst (updateTaskStatus req db)) = true ->
  validStatus req = true
  /\ exists t, tasks db !! params_id req = Some t
               /\ participant t (user req) = true
               /\ validates (setStatus t (Req.status (body req))) = true.
Proof.
  intros Hs. destruct (validStatus req) eqn:Hv.
  2:{ by rewrite updateTaskStatus_invalid in Hs. }
  split; [done|]. pose proof (updateTaskStatus_outcome req db Hv) as Ho.
  destruct (tasks db !! params_id req) as [t|]; [|by rewrite Ho in Hs].
  destruct (participant t (user req)) eqn:Hp; cbn [negb] in Ho;
    [|by rewrite Ho in Hs].
  exists t. destruct (validates _); [done|by rewrite Ho in Hs].
Qed.

(** X9.  Once its creator has deleted a task, the task is in no listing of
    any user, and every other task is listed exactly as before. *)
Theorem deleted_task_leaves_listings req db t :
  wfDB db ->
  tasks db !! params_id req = Some t ->
  user req = createdBy t ->
  let db' := snd (deleteTask req db) in
  succeeded (fst (deleteTask req db)) = true
  /\ (forall k u, ~ listedBy k u db' t)
  /\ (forall k u t', t' <> t -> (listedBy k u db' t' <-> listedBy k u db t'))
  /\ (forall j, j <> params_id req -> tasks db' !! j = tasks db !! j).
Proof.
  intros Hwf Ht Hu db'. unfold db'.
  rewrite deleteTask_outcome, Ht, Hu, N.eqb_refl. cbn [negb fst snd].
  assert (Hst : forall t',
    t' ∈ stored (withTasks db (delete (params_id req) (tasks db)))
    <-> t' ∈ stored db /\ t' <> t).
  { intros t'. rewrite !elem_of_stored. cbn [tasks withTasks]. split.
    - intros (j & Hj). apply lookup_delete_Some in Hj as [Hne Hj].
      split; [eauto|]. intros ->.
      apply Hne. rewrite <- (Hwf _ _ Ht), <- (Hwf _ _ Hj). done.
    - intros [(j & Hj) Hne]. exists j. apply lookup_delete_Some. split; [|done].
      intros <-. congruence. }
  split; [done|]. split; [|split].
  - intros k u. rewrite listedBy_iff, Hst. tauto.
  - intros k u t' Hne. rewrite !listedBy_iff, Hst. tauto.
  - intros j Hj. cbn. by apply lookup_delete_ne.
Qed.

(** X10.  A task that [createTask] has created is in the created-by-me and
    all-tasks listings of its creator and in the all-tasks listing of its
    assignee; it is in the assigned-to-me listing of the assignee exactly
    when the assignee is not the creator.  When both users exist,
    [getTaskById] gives the creator and the assignee the task as it was
    created. *)
Theorem created_task_is_listed_and_read req db a :
  requiredPresent (body req) = true ->
  dueDateInPast (runtime req) (Req.dueDate (body req)) = false ->
  castObjectId (Req.assignedTo (body req)) = Some a ->
  validates (TaskModel.newDocument (runtime req) (newObjectId req)
               (Req.title (body req)) (Req.description (body req))
               (Req.dueDate (body req)) (Req.priority (body req))
               a (user req)) = true ->
  tasks db !! newObjectId req = None ->
  let t := TaskModel.newDocument (runtime req) (newObjectId req)
             (Req.title (body req)) (Req.description (body req))
             (Req.dueDate (body req)) (Req.priority (body req))
             a (user req) in
  let db' := snd (createTask req db) in
  listedBy CreatedByMe (user req) db' t
  /\ listedBy AllTasks (user req) db' t
  /\ listedBy AllTasks a db' t
  /\ (listedBy AssignedToMe a db' t <-> a <> user req)
  /\ (is_Some (users db !! a) -> is_Some (users db !! user req) ->
      forall req',
        params_id req' = newObjectId req ->
        user req' = user req \/ user req' = a ->
        getTaskById req' db' =
          ({| statusCode := 200; json := TaskBody None (Some (populated db t)) |}, db')).
Proof.
  intros Hp Hd Ha Hv Hfresh t db'.
  assert (Hdb : db' = withTasks db (<[newObjectId req := t]> (tasks db))).
  { unfold db'. rewrite createTask_outcome, Hp, Hd, Ha. cbn zeta.
    by rewrite Hv, Hfresh. }
  assert (Hl : tasks db' !! newObjectId req = Some t).
  { rewrite Hdb. apply lookup_insert_eq. }
  assert (Hst : t ∈ stored db') by (apply elem_of_stored; eauto).
  rewrite !listedBy_iff. cbn [inListing].
  change (createdBy t) with (user req). change (assignedTo t) with a.
  split; [done|]. split; [by auto|]. split; [by auto|]. split.
  - split; [by intros (_ & _ & Hne) | intros Hne; by auto].
  - intros [[an ae] Hua] [[cn ce] Huc] req' Hid Hwho.
    apply injective_projections.
    + destruct (getTaskById_outcome req' db') as [-> _]. rewrite Hid, Hl.
      change (createdBy t) with (user req). change (assignedTo t) with a.
      assert (Hus : users db' = users db) by (by rewrite Hdb).
      rewrite Hus, Huc, Hua. unfold participant.
      change (createdBy t) with (user req). change (assignedTo t) with a.
      assert (Hpart : N.eqb (user req) (user req') || N.eqb a (user req') = true).
      { destruct Hwho as [-> | ->]; rewrite N.eqb_refl; by rewrite ?orb_true_r. }
      rewrite Hpart. cbn [fst]. do 3 f_equal. unfold populated, summary.
      change (createdBy t) with (user req). change (assignedTo t) with a.
      by rewrite Huc, Hua.
    + by destruct (getTaskById_outcome req' db') as [_ ->].
Qed.

(** X11.  [getTaskById] is the one operation whose outcome depends on the
    users: it answers every requester 500 for a task one of whose user
    references resolves to no user.  For every other call, the status code
    and the tasks it leaves are the same whatever the users collection
    holds. *)
Theorem only_getTaskById_needs_the_users req db t :
  tasks db !! params_id req = Some t ->
  users db !! createdBy t = None \/ users db !! assignedTo t = None ->
  getTaskById req db = ({| statusCode := 500; json := ServerError TypeError |}, db)
  /\ (forall c us,
        (forall r, c <> CallGet r) ->
        statusCode (fst (call c (withUsers db us))) = statusCode (fst (call c db))
        /\ tasks (snd (call c (withUsers db us))) = tasks (snd (call c db))).
Proof.
  intros Ht Hdangling. split.
  - apply injective_projections; [|by destruct (getTaskById_outcome req db) as [_ ->]].
    destruct (getTaskById_outcome req db) as [-> _]. rewrite Ht.
    destruct Hdangling as [-> | Ha]; [done|]. rewrite Ha.
    by destruct (users db !! createdBy t) as [[? ?]|].
  - clear. intros c us Hc.
    destruct c as [req|k req|req|req|req|req]; cbn [call].
    + rewrite !createTask_outcome. cbn [tasks withUsers].
      destruct (negb (requiredPresent _)); [done|].
      destruct (dueDateInPast _ _); [done|].
      destruct (castObjectId _) as [a|]; [|done]. cbn zeta.
      destruct (negb (validates _)); [done|].
      by destruct (tasks db !! newObjectId req).
    + rewrite !listingHandler_listTasks, !listTasks_outcome. cbn [fst snd].
      change (matching (queryOf k (user req)) (withUsers db us))
        with (matching (queryOf k (user req)) db).
      by destruct (window _ _ _).
    + by destruct (Hc req).
    + pose proof (updateTask_outcome req db) as Ho.
      pose proof (updateTask_outcome req (withUsers db us)) as Ho'.
      cbn [tasks withUsers] in Ho'.
      destruct (tasks db !! params_id req) as [t|]; [|by rewrite Ho, Ho'].
      destruct (negb (participant t (user req))); [by rewrite Ho, Ho'|].
      destruct (Js.truthy _ && dueDateInPast _ _); [by rewrite Ho, Ho'|].
      destruct (negb (validatesUpdate _ _ _ _ _)); [by rewrite Ho, Ho'|].
      destruct Ho as (-> & _ & ->), Ho' as (-> & _ & ->). done.
    + rewrite !deleteTask_outcome. cbn [tasks withUsers].
      destruct (tasks db !! params_id req) as [t|]; [|done].
      by destruct (negb _).
    + destruct (validStatus req) eqn:Hv; [|by rewrite !updateTaskStatus_invalid].
      pose proof (updateTaskStatus_outcome req db Hv) as Ho.
      pose proof (updateTaskStatus_outcome req (withUsers db us) Hv) as Ho'.
      cbn [tasks withUsers] in Ho'.
      destruct (tasks db !! params_id req) as [t|]; [|by rewrite Ho, Ho'].
      destruct (negb (participant t (user req))); [by rewrite Ho, Ho'|].
      destruct (negb (validates _)); [by rewrite Ho, Ho'|].
      destruct Ho as (-> & _ & ->), Ho' as (-> & _ & ->). done.
Qed.

(** X12.  Repeating an update that succeeded changes nothing more: the
    same [updateTask], or the same [updateTaskStatus], on the database the
    first one left gets the same answer and leaves that database as it
    is. *)
Theorem repeated_update_changes_nothing req db :
  (succeeded (fst (updateTask req db)) = true ->
   updateTask req (snd (updateTask req db)) =
     (fst (updateTask req db), snd (updateTask req db)))
  /\ (wfDB db ->
      succeeded (fst (updateTaskStatus req db)) = true ->
      updateTaskStatus req (snd (updateTaskStatus req db)) =
        (fst (updateTaskStatus req db), snd (updateTaskStatus req db))).
Proof.
  split.
  - intros Hs. destruct (updateTask_succeeded req db Hs) as (t & Ht & Hp & Hacc).
    rewrite (updateTask_ok req db t Ht Hp Hacc). cbn [fst snd].
    rewrite (updateTask_ok req _ (updatedBy req t)); cbn [tasks withTasks];
      [|apply lookup_insert_eq|done|done].
    by rewrite insert_insert_eq.
  - intros Hwf Hs.
    destruct (updateTaskStatus_succeeded req db Hs) as (Hv & t & Ht & Hp & Hval).
    rewrite (updateTaskStatus_ok req db t Hv Ht Hp Hval). cbn [fst snd].
    rewrite (Hwf _ _ Ht).
    rewrite (updateTaskStatus_ok req _ (setStatus t (Req.status (body req))) Hv);
      cbn [tasks withTasks]; [|apply lookup_insert_eq|done|done].
    cbn [_id setStatus]. rewrite (Hwf _ _ Ht). by rewrite insert_insert_eq.
Qed.

End Composition.

(** ** The admin seed script *)

Module SeedFacts.

Import Seed.

Section SeedFacts.

Context `{UserSchema}.

Lemma findOne_Some e us u :
  findOne e us = Some u -> email u = e /\ exists i, us !! i = Some u.
Proof.
  unfold findOne. intros Hh%head_Some_elem_of.
  apply list_elem_of_filter in Hh as [He Hin]. split; [done|].
  apply list_elem_of_fmap in Hin as ([i u'] & -> & Hin).
  exists i. by apply elem_of_map_to_list.
Qed.

Lemma findOne_None e us :
  findOne e us = None <-> forall i u, us !! i = Some u -> email u <> e.
Proof.
  unfold findOne. rewrite head_None. split.
  - intros Hnil i u Hi He.
    apply (filter_nil_not_elem_of _ _ u Hnil He).
    apply list_elem_of_fmap. exists (i, u). split; [done|].
    by apply elem_of_map_to_list.
  - intros Hno. apply elem_of_nil_inv. intros u Hin.
    apply list_elem_of_filter in Hin as [He Hin].
    apply list_elem_of_fmap in Hin as ([i u'] & -> & Hin).
    apply elem_of_map_to_list in Hin. by apply (Hno i u').
Qed.

(** The document a run stores when it creates the admin. *)
Lemma seedAdmin_outcome connected newId us :
  let admin := {| name := "Admin User"; email := adminEmail;
                  password := hashPassword "Admin@123"; role := "admin" |} in
  (users (seedAdmin connected newId us) = us
   /\ (exitCode (seedAdmin connected newId us) = 1
       \/ exitCode (seedAdmin connected newId us) = 0
          /\ connected = true
          /\ exists u, findOne adminEmail us = Some u))
  \/ (users (seedAdmin connected newId us) = <[newId := admin]> us
      /\ exitCode (seedAdmin connected newId us) = 0
      /\ connected = true
      /\ us !! newId = None
      /\ findOne adminEmail us = None
      /\ validates {| name := "Admin User"; email := adminEmail;
                      password := "Admin@123"; role := "admin" |} = true).
Proof.
  intros admin. unfold seedAdmin.
  destruct connected; cbn [negb]; [|left; by auto].
  destruct (findOne adminEmail us) as [u|] eqn:Hf; [left; by eauto 10|].
  unfold create. destruct (validates _) eqn:Hv; cbn [negb]; [|left; by auto].
  destruct (us !! newId) eqn:Hn; [left; by auto|]. right. by auto 10.
Qed.


(** X16.  [seedAdmin] changes no user that is stored and removes none.  It
    adds at most one document: the admin, with the password hashed, under
    the new [_id], and only when the database is reached, no stored user
    has the admin's email, and the schema accepts the document.  A run that
    ends with code 1 leaves the collection as it was. *)
Theorem seedAdmin_adds_at_most_the_admin connected newId us :
  let after := users (seedAdmin connected newId us) in
  (forall i u, us !! i = Some u -> after !! i = Some u)
  /\ (forall i u,
        after !! i = Some u -> us !! i = None ->
        i = newId
        /\ u = {| name := "Admin User"; email := adminEmail;
                  password := hashPassword "Admin@123"; role := "admin" |}
        /\ connected = true
        /\ (forall j v, us !! j = Some v -> email v <> adminEmail))
  /\ (exitCode (seedAdmin connected newId us) = 1 -> after = us)
  /\ (exitCode (seedAdmin connected newId us) = 0
      \/ exitCode (seedAdmin connected newId us) = 1).
Proof.
  intros after. unfold after.
  destruct (seedAdmin_outcome connected newId us)
    as [(-> & Hcode) | (-> & Hcode & Hconn & Hfree & Hnone & _)].
  - split; [done|]. split; [intros i u Hi Hn; congruence|]. split; [done|].
    destruct Hcode as [?|(? & _)]; by auto.
  - split; [|split; [|split; [|by left]]].
    + intros i u Hi. rewrite lookup_insert_ne; [done|]. intros <-. congruence.
    + intros i u Hi Hn. apply lookup_insert_Some in Hi as [(<- & <-)|(_ & Hi)];
        [|congruence].
      split; [done|]. split; [done|]. split; [done|]. by apply findOne_None.
    + intros Hone. rewrite Hcode in Hone. done.
Qed.

(** X17.  [seedAdmin] looks for its admin by email alone: when any stored
    user has the admin's email, whatever the role of this user, the run
    ends with code 0, creates nothing, and prints the role it found.  So
    code 0 does not tell that a user with the role admin exists. *)
Theorem seedAdmin_checks_the_email_only newId us i u :
  us !! i = Some u ->
  email u = adminEmail ->
  exists found,
    (exists j, us !! j = Some found) /\ email found = adminEmail
    /\ seedAdmin true newId us =
         {| exitCode := 0;
            lines := [Log "MongoDB Connected";
                      Log "Admin user already exists!";
                      Log ("Email: " ++ email found);
                      Log ("Role: " ++ role found)];
            users := us |}
    /\ ((forall j v, us !! j = Some v -> email v = adminEmail -> role v = role u) ->
        role found = role u).
Proof.
  intros Hi He. unfold seedAdmin. cbn [negb].
  destruct (findOne adminEmail us) as [found|] eqn:Hf.
  - exists found. apply findOne_Some in Hf as (Hfe & j & Hj).
    split; [eauto|]. split; [done|]. split; [done|]. intros Hall. by eapply Hall.
  - rewrite findOne_None in Hf. by destruct (Hf i u Hi).
Qed.

End SeedFacts.

End SeedFacts.

(** ** The routers *)

Module RouterFacts.

Import Router.



Ltac eval_routes :=
  repeat match goal with
    | |- context [handlesMethod ?a ?b] =>
        let v := eval vm_compute in (handlesMethod a b) in
        change (handlesMethod a b) with v
    | |- context [lower (String ?c ?r)] =>
        let v := eval vm_compute in (lower (String c r)) in
        change (lower (String c r)) with v
    end.

Ltac step_routes :=
  cbn [dispatch matchPath runStack fmap list_fmap option_fmap option_map app];
  eval_routes;
  cbn [dispatch matchPath runStack fmap list_fmap option_fmap option_map app].


(** X14.  In the auth router, [register] and [login] are the only handlers
    a request reaches without passing [auth]: [getUsers], [updateProfile],
    [deleteSelf] and [deleteUser] run only for a request [auth] accepted,
    right after [auth]; a request it refuses stops at [auth].  No request
    reaches more than one handler. *)
Theorem auth_routes_guard accepted m path :
  let ran := AuthRoutes.run accepted m path in
  (length ran <= 2)%nat
  /\ (forall f ps,
        (f, ps) ∈ ran -> f <> AuthRoutes.Auth -> AuthRoutes.open f = false ->
        accepted = true /\ ran = [(AuthRoutes.Auth, ps); (f, ps)])
  /\ (forall f ps,
        (f, ps) ∈ ran -> AuthRoutes.open f = true ->
        ran = [(f, [])] /\ m = POST)
  /\ (accepted = false ->
      forall f ps, (f, ps) ∈ ran -> f = AuthRoutes.Auth \/ AuthRoutes.open f = true)
  /\ AuthRoutes.run accepted POST ["register"] = [(AuthRoutes.Register, [])]
  /\ AuthRoutes.run accepted POST ["login"] = [(AuthRoutes.Login, [])].
Proof.
  unfold AuthRoutes.run, AuthRoutes.router. cbv zeta.
  split; [|split; [|split; [|split; [|split; done]]]].
  - destruct accepted, m; destruct path as [|s [|x [|y path]]]; step_routes;
      cbn [AuthRoutes.next];
      repeat match goal with
        | |- context [String.eqb ?a ?b] => destruct (String.eqb a b)
        end;
      step_routes; cbn [AuthRoutes.next]; step_routes; cbn; lia.
  - intros f ps.
    destruct accepted, m; destruct path as [|s [|x [|y path]]]; step_routes;
      cbn [AuthRoutes.next];
      repeat match goal with
        | |- context [String.eqb ?a ?b] => destruct (String.eqb a b)
        end;
      step_routes; cbn [AuthRoutes.next]; step_routes; intros Hin Hf Ho;
      repeat (apply elem_of_cons in Hin as [Hin | Hin];
              [injection Hin as -> ->; try done|]);
      by apply elem_of_nil in Hin.
  - intros f ps.
    destruct accepted, m; destruct path as [|s [|x [|y path]]]; step_routes;
      cbn [AuthRoutes.next];
      repeat match goal with
        | |- context [String.eqb ?a ?b] => destruct (String.eqb a b)
        end;
      step_routes; cbn [AuthRoutes.next]; step_routes; intros Hin Ho;
      repeat (apply elem_of_cons in Hin as [Hin | Hin];
              [injection Hin as -> ->; try done|]);
      by apply elem_of_nil in Hin.
  - intros -> f ps.
    destruct m; destruct path as [|s [|x [|y path]]]; step_routes;
      cbn [AuthRoutes.next];
      repeat match goal with
        | |- context [String.eqb ?a ?b] => destruct (String.eqb a b)
        end;
      step_routes; cbn [AuthRoutes.next]; step_routes; intros Hin;
      repeat (apply elem_of_cons in Hin as [Hin | Hin];
              [injection Hin as -> ->; by auto|]);
      by apply elem_of_nil in Hin.
Qed.

End RouterFacts.

(** ** More of the controller: the two update paths and strangers *)

Section UpdatePaths.

Context `{TaskSchema}.

(** X18.  An [updateTask] that sends back the stored [title],
    [description], [dueDate] and [priority] with a new status leaves, when
    it succeeds, the collection that an [updateTaskStatus] with this status
    leaves when it succeeds: on such a payload the two paths agree. *)
Theorem update_paths_agree req db t :
  wfDB db ->
  tasks db !! params_id req = Some t ->
  Req.title (body req) = title t ->
  Req.description (body req) = description t ->
  Req.dueDate (body req) = dueDate t ->
  Req.priority (body req) = priority t ->
  succeeded (fst (updateTask req db)) = true ->
  succeeded (fst (updateTaskStatus req db)) = true ->
  snd (updateTask req db) = snd (updateTaskStatus req db)
  /\ json (fst (updateTask req db)) =
       TaskBody (Some "Task updated successfully")
         (Some (populated db (setStatus t (Req.status (body req)))))
  /\ json (fst (updateTaskStatus req db)) =
       TaskBody (Some "Task status updated successfully")
         (Some (populated db (setStatus t (Req.status (body req))))).
Proof.
  intros Hwf Ht Etitle Edesc Edue Eprio Hu Hs.
  destruct (updateTask_succeeded req db Hu) as (t1 & Ht1 & Hp & Hacc).
  destruct (updateTaskStatus_succeeded req db Hs) as (Hv & t2 & Ht2 & _ & Hval).
  rewrite Ht in Ht1, Ht2. injection Ht1 as <-. injection Ht2 as <-.
  rewrite (updateTask_ok req db t Ht Hp Hacc).
  rewrite (updateTaskStatus_ok req db t Hv Ht Hp Hval). cbn [fst snd json].
  assert (Heq : updatedBy req t = setStatus t (Req.status (body req))).
  { unfold updatedBy, setStatus. by rewrite Etitle, Edesc, Edue, Eprio. }
  rewrite Heq, (Hwf _ _ Ht). done.
Qed.

(** X19.  A task whose stored due date is in the past can no longer go
    through [updateTask] with its due date sent back: the answer is
    InvalidInput and nothing changes, whoever of the participants asks.
    [updateTaskStatus] makes no test on the due date, and still sets the
    status of such a task. *)
Theorem overdue_task_needs_the_status_path req db t :
  wfDB db ->
  tasks db !! params_id req = Some t ->
  participant t (user req) = true ->
  Req.dueDate (body req) = dueDate t ->
  Js.truthy (dueDate t) = true ->
  dueDateInPast (runtime req) (dueDate t) = true ->
  updateTask req db =
    ({| statusCode := 400; json := Message false "Due date cannot be in the past" |}, db)
  /\ (validStatus req = true ->
      validates (setStatus t (Req.status (body req))) = true ->
      succeeded (fst (updateTaskStatus req db)) = true
      /\ tasks (snd (updateTaskStatus req db)) !! params_id req
         = Some (setStatus t (Req.status (body req)))).
Proof.
  intros Hwf Ht Hp Edue Htruthy Hpast. split.
  - pose proof (updateTask_outcome req db) as Ho.
    rewrite Ht, Hp, Edue, Htruthy, Hpast in Ho. exact Ho.
  - intros Hv Hval. rewrite (updateTaskStatus_ok req db t Hv Ht Hp Hval).
    cbn [fst snd tasks withTasks]. split; [done|].
    rewrite (Hwf _ _ Ht). apply lookup_insert_eq.
Qed.

Lemma stranger_call_keeps_task c db i t :
  wfDB db ->
  tasks db !! i = Some t ->
  participant t (requester c) = false ->
  tasks (snd (call c db)) !! i = Some t.
Proof.
  intros Hwf Ht Hstranger.
  destruct (call_step c db) as [-> | (_ & _ & Hstep)]; [done|].
  destruct Hstep as [(req & t0 & -> & Hfree & _ & ->)
                    |[(req & t0 & t' & Hc & Ht0 & Hp & _ & _ & _ & _ & Hdb)
                     |(req & t0 & -> & Ht0 & Hu & ->)]]; cbn [tasks withTasks].
  - rewrite lookup_insert_ne; [done|]. intros <-. congruence.
  - assert (Hreq : requester c = user req) by (by destruct Hc as [-> | ->]).
    rewrite Hreq in Hstranger.
    assert (Hne : params_id req <> i).
    { intros <-. rewrite Ht0 in Ht. injection Ht as <-. congruence. }
    destruct Hdb as [-> | ->]; cbn [tasks withTasks];
      rewrite ?(Hwf _ _ Ht0); by rewrite lookup_insert_ne.
  - cbn [requester] in Hstranger.
    assert (Hne : params_id req <> i).
    { intros <-. rewrite Ht0 in Ht. injection Ht as <-.
      unfold participant in Hstranger. rewrite Hu, N.eqb_refl in Hstranger. done. }
    by rewrite lookup_delete_ne.
Qed.

(** X20.  Calls of users who are neither the creator nor the assignee of a
    task, however many and whichever, leave the task exactly as it is: on a
    collection that keeps each document under its own [_id], no field of
    it changes and it is not deleted. *)
Theorem strangers_change_nothing cs db i t :
  wfDB db ->
  tasks db !! i = Some t ->
  Forall (fun c => participant t (requester c) = false) cs ->
  tasks (exec cs db) !! i = Some t.
Proof.
  revert db. induction cs as [|c cs IH]; intros db Hwf Ht Hcs; [done|].
  apply Forall_cons in Hcs as [Hc Hcs]. cbn [exec].
  apply IH; [by apply call_keeps_wfDB | by apply stranger_call_keeps_task | done].
Qed.

End UpdatePaths.

(** ** More of the controller: the newest task *)

Section Newest.

Context `{TaskSchema}.

Lemma head_of_sorted (l : list Task) (t : Task) :
  StronglySorted newerFirst l ->
  t ∈ l ->
  (forall x, x ∈ l -> x <> t -> createdAt x < createdAt t) ->
  head l = Some t.
Proof.
  intros Hsorted Hin Hmax. destruct l as [|h rest]; [by apply elem_of_nil in Hin|].
  cbn. f_equal. destruct (decide (h = t)) as [|Hne]; [done|]. exfalso.
  apply elem_of_cons in Hin as [->|Hin]; [done|].
  apply StronglySorted_inv in Hsorted as [_ Hall].
  rewrite Forall_forall in Hall. specialize (Hall t Hin). unfold newerFirst in Hall.
  specialize (Hmax h ltac:(by left) Hne). lia.
Qed.

(** X21.  A task that [createTask] has just created, at a time later than
    the creation time of every stored task, is the first document of the
    first page of its creator's created-by-me listing: the listing shows
    the newest task first. *)
Theorem created_task_tops_the_listing req db a req' :
  requiredPresent (body req) = true ->
  dueDateInPast (runtime req) (Req.dueDate (body req)) = false ->
  castObjectId (Req.assignedTo (body req)) = Some a ->
  validates (TaskModel.newDocument (runtime req) (newObjectId req)
               (Req.title (body req)) (Req.description (body req))
               (Req.dueDate (body req)) (Req.priority (body req))
               a (user req)) = true ->
  tasks db !! newObjectId req = None ->
  (forall i t', tasks db !! i = Some t' -> createdAt t' < Js.now (runtime req)) ->
  user req' = user req ->
  pageOf req' = 1 ->
  1 <= limitOf req' ->
  head (pageDocs (fst (getCreatedTasks req' (snd (createTask req db)))))
  = Some (TaskModel.newDocument (runtime req) (newObjectId req)
            (Req.title (body req)) (Req.description (body req))
            (Req.dueDate (body req)) (Req.priority (body req))
            a (user req)).
Proof.
  intros Hp Hd Ha Hv Hfresh Hnew Hu Hpage Hl.
  set (t := TaskModel.newDocument _ _ _ _ _ _ _ _).
  assert (Hdb : snd (createTask req db)
                = withTasks db (<[newObjectId req := t]> (tasks db))).
  { rewrite createTask_outcome, Hp, Hd, Ha. cbn zeta. by rewrite Hv, Hfresh. }
  rewrite Hdb. change getCreatedTasks with (listingHandler CreatedByMe).
  rewrite listingHandler_listTasks, Hu.
  assert (Hs : skipOf req' = 0) by (unfold skipOf; rewrite Hpage; lia).
  rewrite listTasks_page by lia. cbn [pageDocs json].
  rewrite <- list_fmap_compose, list_fmap_id, Hs. change (Z.to_nat 0) with 0%nat.
  rewrite drop_0.
  set (all := matching _ _).
  assert (Hhead : head all = Some t).
  { apply head_of_sorted.
    - apply matching_Sorted.
    - apply elem_of_matching. split.
      + apply elem_of_stored. exists (newObjectId req). apply lookup_insert_eq.
      + cbn. apply N.eqb_refl.
    - intros x Hx Hne. apply elem_of_matching in Hx as [Hx _].
      apply elem_of_stored in Hx as (j & Hj). cbn [tasks withTasks] in Hj.
      apply lookup_insert_Some in Hj as [(_ & <-)|(_ & Hj)]; [done|].
      by apply (Hnew j). }
  destruct all as [|h rest]; [done|].
  destruct (Z.to_nat (limitOf req')) eqn:E; [lia|done].
Qed.

End Newest.

(** ** The further properties on the sample data *)

(** X2 on the sample data: after the four sample calls task 10 is still
    stored, created by U1 and assigned to U2. *)
Lemma identity_kept_by_calls_witness :
  wfDB sampleDB
  /\ tasks sampleDB !! 10%N = Some (sampleTask 10%N U1 U2 100)
  /\ exists t',
       tasks (exec sampleCalls sampleDB) !! 10%N = Some t'
       /\ createdBy t' = U1 /\ assignedTo t' = U2.
Proof.
  assert (Ht : tasks sampleDB !! 10%N = Some (sampleTask 10%N U1 U2 100))
    by (vm_compute; reflexivity).
  assert (Hnd : Forall (fun c => ~ deletesFor 10%N (createdBy (sampleTask 10%N U1 U2 100)) c)
                  sampleCalls).
  { unfold sampleCalls. repeat apply Forall_cons_2; try apply Forall_nil_2;
      cbn; try tauto; intros [_ Hu]; discriminate Hu. }
  split; [exact sampleDB_wf|]. split; [exact Ht|].
  destruct (identity_kept_by_calls sampleCalls sampleDB 10%N _ sampleDB_wf Ht Hnd)
    as ((t' & Ht' & _ & Hb & Ha & _) & _).
  exists t'. split; [exact Ht'|]. split; [exact Hb | exact Ha].
Defined.

(** X5 on the sample data: the two pages of the all-tasks listing of U1
    are its four tasks. *)
Lemma pages_cover_the_listing_witness :
  1 <= limitOf (sampleRequest U1 0%N emptyBody None None)
  /\ (let all := matching (queryOf AllTasks (user (sampleRequest U1 0%N emptyBody None None)))
                   sampleDB in
      let pages := - ((- Z.of_nat (length all))
                      / limitOf (sampleRequest U1 0%N emptyBody None None)) in
      concat ((fun p => pageDocs (fst (listingHandler AllTasks
                                         (withPage (sampleRequest U1 0%N emptyBody None None) p)
                                         sampleDB)))
                <$> seqZ 1 pages) = all).
Proof.
  assert (Hl : 1 <= limitOf (sampleRequest U1 0%N emptyBody None None))
    by (vm_compute; discriminate).
  split; [exact Hl|]. exact (pages_cover_the_listing AllTasks _ sampleDB Hl).
Defined.

(** X6 on the sample data: page 3 of the all-tasks listing of U1, which has
    two pages, is an empty page, not an error. *)
Lemma page_count_and_empty_pages_witness :
  1 <= pageOf (sampleRequest U1 0%N emptyBody (Some "3") None)
  /\ 1 <= limitOf (sampleRequest U1 0%N emptyBody (Some "3") None)
  /\ statusCode (fst (listingHandler AllTasks
                        (sampleRequest U1 0%N emptyBody (Some "3") None) sampleDB)) = 200
  /\ pageDocs (fst (listingHandler AllTasks
                      (sampleRequest U1 0%N emptyBody (Some "3") None) sampleDB)) = [].
Proof.
  assert (Hp : 1 <= pageOf (sampleRequest U1 0%N emptyBody (Some "3") None))
    by (vm_compute; discriminate).
  assert (Hl : 1 <= limitOf (sampleRequest U1 0%N emptyBody (Some "3") None))
    by (vm_compute; discriminate).
  split; [exact Hp|]. split; [exact Hl|].
  destruct (page_count_and_empty_pages AllTasks _ sampleDB Hp Hl)
    as (Hc & _ & _ & _ & Hempty).
  split; [exact Hc|]. apply Hempty. vm_compute; reflexivity.
Defined.

(** X7 on the sample data: U1 has four tasks in all, three created and one
    assigned by someone else. *)
Lemma totals_add_up_witness :
  succeeded (fst (getTasks (sampleRequest U1 0%N emptyBody None None) sampleDB)) = true
  /\ succeeded (fst (getCreatedTasks (sampleRequest U1 0%N emptyBody None None) sampleDB)) = true
  /\ succeeded (fst (getAssignedTasks (sampleRequest U1 0%N emptyBody None None) sampleDB)) = true
  /\ pageTotal (fst (getTasks (sampleRequest U1 0%N emptyBody None None) sampleDB))
     = pageTotal (fst (getCreatedTasks (sampleRequest U1 0%N emptyBody None None) sampleDB))
       + pageTotal (fst (getAssignedTasks (sampleRequest U1 0%N emptyBody None None) sampleDB)).
Proof.
  assert (H1 : succeeded (fst (getTasks (sampleRequest U1 0%N emptyBody None None) sampleDB))
               = true) by (vm_compute; reflexivity).
  assert (H2 : succeeded (fst (getCreatedTasks (sampleRequest U1 0%N emptyBody None None) sampleDB))
               = true) by (vm_compute; reflexivity).
  assert (H3 : succeeded (fst (getAssignedTasks (sampleRequest U1 0%N emptyBody None None) sampleDB))
               = true) by (vm_compute; reflexivity).
  split; [exact H1|]. split; [exact H2|]. split; [exact H3|].
  exact (totals_add_up _ _ _ sampleDB eq_refl eq_refl H1 H2 H3).
Defined.

(** X8 on the sample data: U2 reads task 10, which is in U2's all-tasks
    listing. *)
Lemma list_and_detail_agree_witness :
  tasks sampleDB !! 10%N = Some (sampleTask 10%N U1 U2 100)
  /\ resolved OpGet sampleDB (sampleTask 10%N U1 U2 100) = true
  /\ listedBy AllTasks (user (sampleRequest U2 10%N emptyBody None None)) sampleDB
       (sampleTask 10%N U1 U2 100).
Proof.
  assert (Ht : tasks sampleDB !! 10%N = Some (sampleTask 10%N U1 U2 100))
    by (vm_compute; reflexivity).
  assert (Hr : resolved OpGet sampleDB (sampleTask 10%N U1 U2 100) = true)
    by (vm_compute; reflexivity).
  split; [exact Ht|]. split; [exact Hr|].
  apply (list_and_detail_agree (sampleRequest U2 10%N emptyBody None None)
           sampleDB _ Ht Hr).
  vm_compute; reflexivity.
Defined.

(** X9 on the sample data: once U1 has deleted task 10, U2 no longer finds
    it in a listing, and task 11 is where it was. *)
Lemma deleted_task_leaves_listings_witness :
  tasks sampleDB !! 10%N = Some (sampleTask 10%N U1 U2 100)
  /\ (listedBy AllTasks U2
        (snd (deleteTask (sampleRequest U1 10%N emptyBody None None) sampleDB))
        (sampleTask 10%N U1 U2 100) -> False)
  /\ tasks (snd (deleteTask (sampleRequest U1 10%N emptyBody None None) sampleDB)) !! 11%N
     = tasks sampleDB !! 11%N.
Proof.
  assert (Ht : tasks sampleDB !! 10%N = Some (sampleTask 10%N U1 U2 100))
    by (vm_compute; reflexivity).
  split; [exact Ht|].
  destruct (deleted_task_leaves_listings
              (sampleRequest U1 10%N emptyBody None None) sampleDB _
              sampleDB_wf Ht eq_refl) as (_ & Hgone & _ & Hframe).
  split; [apply Hgone|]. apply Hframe. discriminate.
Defined.

(** X10 on the sample data: the task U1 creates for U2 is in the
    created-by-me listing of U1 and in the assigned-to-me listing of U2. *)
Lemma created_task_is_listed_and_read_witness :
  requiredPresent (createBody today) = true
  /\ dueDateInPast sampleRuntime (Js.JStr today) = false
  /\ castObjectId (Js.JStr "000000000000000000000002") = Some U2
  /\ tasks sampleDB !! 99%N = None
  /\ exists t,
       listedBy CreatedByMe U1
         (snd (createTask (sampleRequest U1 0%N (createBody today) None None) sampleDB)) t
       /\ listedBy AssignedToMe U2
            (snd (createTask (sampleRequest U1 0%N (createBody today) None None) sampleDB)) t
       /\ createdBy t = U1.
Proof.
  assert (Hp : requiredPresent (createBody today) = true) by reflexivity.
  assert (Hd : dueDateInPast sampleRuntime (Js.JStr today) = false)
    by (vm_compute; reflexivity).
  assert (Ha : castObjectId (Js.JStr "000000000000000000000002") = Some U2)
    by (vm_compute; reflexivity).
  assert (Hf : tasks sampleDB !! 99%N = None) by (vm_compute; reflexivity).
  split; [exact Hp|]. split; [exact Hd|]. split; [exact Ha|]. split; [exact Hf|].
  destruct (created_task_is_listed_and_read
              (sampleRequest U1 0%N (createBody today) None None) sampleDB U2
              Hp Hd Ha ltac:(vm_compute; reflexivity) Hf)
    as (Hcreated & _ & _ & Hassigned & _).
  eexists. split; [exact Hcreated|]. split; [|reflexivity].
  apply Hassigned. discriminate.
Defined.

(** X11 on the sample data: task 20 is assigned to a user that does not
    exist, and its creator cannot read it. *)
Lemma only_getTaskById_needs_the_users_witness :
  tasks danglingDB !! 20%N = Some (sampleTask 20%N U1 7%N 600)
  /\ users danglingDB !! 7%N = None
  /\ getTaskById (sampleRequest U1 20%N emptyBody None None) danglingDB
     = ({| statusCode := 500; json := ServerError TypeError |}, danglingDB).
Proof.
  assert (Ht : tasks danglingDB !! 20%N = Some (sampleTask 20%N U1 7%N 600))
    by (vm_compute; reflexivity).
  assert (Hu : users danglingDB !! 7%N = None) by (vm_compute; reflexivity).
  split; [exact Ht|]. split; [exact Hu|].
  by destruct (only_getTaskById_needs_the_users
                 (sampleRequest U1 20%N emptyBody None None) danglingDB _ Ht
                 (or_intror Hu)) as [Hget _].
Defined.

#[local] Existing Instance Seed.sampleUserSchema.


(** X17 on the sample data: a user who registered with the admin's email
    keeps the script from creating the admin. *)
Lemma seedAdmin_checks_the_email_only_witness :
  Seed.squattedUsers !! 2%N
  = Some {| Seed.name := "Eve"; Seed.email := Seed.adminEmail;
            Seed.password := "hash:guess"; Seed.role := "user" |}
  /\ Seed.exitCode (Seed.seedAdmin true 5%N Seed.squattedUsers) = 0
  /\ Seed.users (Seed.seedAdmin true 5%N Seed.squattedUsers) = Seed.squattedUsers.
Proof.
  assert (Hi : Seed.squattedUsers !! 2%N
               = Some {| Seed.name := "Eve"; Seed.email := Seed.adminEmail;
                         Seed.password := "hash:guess"; Seed.role := "user" |})
    by (vm_compute; reflexivity).
  split; [exact Hi|].
  destruct (SeedFacts.seedAdmin_checks_the_email_only 5%N Seed.squattedUsers 2%N _
              Hi eq_refl) as (found & _ & _ & -> & _).
  by split.
Defined.

(** X18 on the sample data: U2 completes task 10 either way. *)
Lemma update_paths_agree_witness :
  tasks sampleDB !! 10%N = Some (sampleTask 10%N U1 U2 100)
  /\ succeeded (fst (updateTask (sampleRequest U2 10%N resendSampleBody None None) sampleDB))
     = true
  /\ succeeded (fst (updateTaskStatus (sampleRequest U2 10%N resendSampleBody None None)
                       sampleDB)) = true
  /\ snd (updateTask (sampleRequest U2 10%N resendSampleBody None None) sampleDB)
     = snd (updateTaskStatus (sampleRequest U2 10%N resendSampleBody None None) sampleDB).
Proof.
  assert (Ht : tasks sampleDB !! 10%N = Some (sampleTask 10%N U1 U2 100))
    by (vm_compute; reflexivity).
  assert (Hu : succeeded (fst (updateTask (sampleRequest U2 10%N resendSampleBody None None)
                                 sampleDB)) = true) by (vm_compute; reflexivity).
  assert (Hs : succeeded (fst (updateTaskStatus (sampleRequest U2 10%N resendSampleBody None None)
                                 sampleDB)) = true) by (vm_compute; reflexivity).
  split; [exact Ht|]. split; [exact Hu|]. split; [exact Hs|].
  by destruct (update_paths_agree (sampleRequest U2 10%N resendSampleBody None None)
                 sampleDB _ sampleDB_wf Ht eq_refl eq_refl eq_refl eq_refl Hu Hs)
    as (Hsame & _).
Defined.

Lemma overdueDB_wf : wfDB overdueDB.
Proof.
  unfold wfDB, overdueDB. cbn [tasks].
  apply map_Forall_insert_2; [reflexivity|]. apply map_Forall_empty.
Qed.

(** X19 on the sample data: U2 cannot complete the overdue task through
    [updateTask], and can through [updateTaskStatus]. *)
Lemma overdue_task_needs_the_status_path_witness :
  tasks overdueDB !! 30%N = Some overdueTask
  /\ dueDateInPast sampleRuntime (dueDate overdueTask) = true
  /\ updateTask (sampleRequest U2 30%N resendBody None None) overdueDB
     = ({| statusCode := 400; json := Message false "Due date cannot be in the past" |},
        overdueDB)
  /\ succeeded (fst (updateTaskStatus (sampleRequest U2 30%N resendBody None None) overdueDB))
     = true.
Proof.
  assert (Ht : tasks overdueDB !! 30%N = Some overdueTask) by (vm_compute; reflexivity).
  assert (Hd : dueDateInPast sampleRuntime (dueDate overdueTask) = true)
    by (vm_compute; reflexivity).
  split; [exact Ht|]. split; [exact Hd|].
  destruct (overdue_task_needs_the_status_path
              (sampleRequest U2 30%N resendBody None None) overdueDB _
              overdueDB_wf Ht ltac:(vm_compute; reflexivity) eq_refl eq_refl Hd)
    as (Hrefused & Hstatus).
  split; [exact Hrefused|].
  by destruct (Hstatus ltac:(vm_compute; reflexivity) ltac:(vm_compute; reflexivity)).
Defined.

(** X20 on the sample data: whatever U3 calls, task 10 stays as it is. *)
Lemma strangers_change_nothing_witness :
  tasks sampleDB !! 10%N = Some (sampleTask 10%N U1 U2 100)
  /\ tasks (exec strangerCalls sampleDB) !! 10%N = Some (sampleTask 10%N U1 U2 100).
Proof.
  assert (Ht : tasks sampleDB !! 10%N = Some (sampleTask 10%N U1 U2 100))
    by (vm_compute; reflexivity).
  split; [exact Ht|].
  apply (strangers_change_nothing strangerCalls sampleDB 10%N _ sampleDB_wf Ht).
  unfold strangerCalls. repeat apply Forall_cons_2; try apply Forall_nil_2; reflexivity.
Defined.

(** X21 on the sample data: the task U1 creates now, later than every
    sample task, is the first of U1's created tasks. *)
Lemma created_task_tops_the_listing_witness :
  requiredPresent (createBody today) = true
  /\ tasks sampleDB !! 99%N = None
  /\ (_id <$> head (pageDocs (fst (getCreatedTasks
                                     (sampleRequest U1 0%N emptyBody None None)
                                     (snd (createTask
                                             (sampleRequest U1 0%N (createBody today) None None)
                                             sampleDB))))))
     = Some 99%N.
Proof.
  assert (Hp : requiredPresent (createBody today) = true) by reflexivity.
  assert (Hd : dueDateInPast sampleRuntime (Js.JStr today) = false)
    by (vm_compute; reflexivity).
  assert (Ha : castObjectId (Js.JStr "000000000000000000000002") = Some U2)
    by (vm_compute; reflexivity).
  assert (Hf : tasks sampleDB !! 99%N = None) by (vm_compute; reflexivity).
  assert (Hnew : forall i t', tasks sampleDB !! i = Some t' ->
                              createdAt t' < Js.now sampleRuntime).
  { intros i t' Hi. unfold sampleDB in Hi. cbn [tasks] in Hi.
    repeat (apply lookup_insert_Some in Hi as [(_ & <-)|(_ & Hi)]; [done|]).
    by rewrite lookup_empty in Hi. }
  split; [exact Hp|]. split; [exact Hf|].
  rewrite (created_task_tops_the_listing
             (sampleRequest U1 0%N (createBody today) None None) sampleDB U2
             (sampleRequest U1 0%N emptyBody None None)
             Hp Hd Ha ltac:(vm_compute; reflexivity) Hf Hnew eq_refl
             ltac:(vm_compute; reflexivity) ltac:(vm_compute; discriminate)).
  reflexivity.
Defined.
